(** * Property investment report: schema contract and metrics calculator

    A shallow embedding of the client page's [mapFromSchema], [withDefaults]
    and the arithmetic of [Report] (src/app/page.jsx), and of the two JSON
    Schema constants shipped with the serverless proxy
    (src/unnamed/part_000, src/unnamed/part_001).

    JavaScript numbers are IEEE-754 doubles.  The embedding keeps the three
    special values NaN, +Infinity and -Infinity and takes the finite numbers
    to be exact rationals: rounding, overflow and the sign of zero are not
    represented.  Every finite result is kept in lowest terms, so that equal
    numbers are equal terms.

    Values are first taken as trees, the way a parsed JSON document is one.
    Where it matters that the page's objects are held by reference,
    [withDefaults] and [Report] are taken again on a store ([Heap]) and
    related to their versions on trees. *)

From Stdlib Require Import QArith Qabs Qpower ZArith Ascii String List Lia Lqa.
From stdpp Require Import base strings list gmap.

Local Open Scope Q_scope.
Local Open Scope string_scope.

(** ** Numbers *)

Module Num.

Inductive number : Type :=
  | Fin (q : Q)
  | PInf
  | NInf
  | NaN.

(** A finite number in lowest terms. *)
Definition num (q : Q) : number := Fin (Qred q).

Definition is_nan (x : number) : bool :=
  match x with NaN => true | _ => false end.

(** Sign of a rational: its numerator's. *)
Definition qsign (q : Q) : Z := Z.sgn (Qnum q).

Definition is_zero (q : Q) : bool := Z.eqb (Qnum q) 0.

Definition is_integral (q : Q) : bool :=
  Pos.eqb (Qden (Qred q)) 1.

Definition is_odd_integral (q : Q) : bool :=
  is_integral q && Z.odd (Qnum (Qred q)).

(** Unary minus. *)
Definition neg (x : number) : number :=
  match x with
  | Fin q => num (- q)
  | PInf => NInf
  | NInf => PInf
  | NaN => NaN
  end.

(** [x + y] on numbers. *)
Definition add (x y : number) : number :=
  match x, y with
  | NaN, _ | _, NaN => NaN
  | PInf, NInf | NInf, PInf => NaN
  | PInf, _ | _, PInf => PInf
  | NInf, _ | _, NInf => NInf
  | Fin a, Fin b => num (a + b)
  end.

(** [x - y] is [x + (-y)]. *)
Definition sub (x y : number) : number := add x (neg y).

(** An infinity of the given sign; a zero sign gives NaN (infinity times zero). *)
Definition inf_of_sign (s : Z) : number :=
  match s with
  | Z0 => NaN
  | Zpos _ => PInf
  | Zneg _ => NInf
  end.

Definition sign (x : number) : Z :=
  match x with
  | Fin q => qsign q
  | PInf => 1
  | NInf => (-1)
  | NaN => 0
  end.

(** [x * y] on numbers. *)
Definition mul (x y : number) : number :=
  match x, y with
  | NaN, _ | _, NaN => NaN
  | Fin a, Fin b => num (a * b)
  | _, _ => inf_of_sign (sign x * sign y)
  end.

(** [x / y] on numbers.  A finite nonzero number over zero is an infinity
    (taken with the sign of the numerator, the zero being read as +0); zero
    over zero and infinity over infinity are NaN. *)
Definition div (x y : number) : number :=
  match x, y with
  | NaN, _ | _, NaN => NaN
  | Fin a, Fin b =>
      if is_zero b then inf_of_sign (qsign a) else num (a / b)
  | Fin _, _ => Fin 0
  | _, Fin b => if is_zero b then x else inf_of_sign (sign x * qsign b)
  | _, _ => NaN
  end.

(** [Math.pow(base, exponent)], following the case analysis of ECMA-262's
    Number::exponentiate.  For a finite nonzero base the power is exact when
    the exponent is an integer; a positive base other than 1 raised to a
    non-integral exponent is in general irrational and has no value here
    ([None]). *)
Definition pow (base exponent : number) : option number :=
  match exponent with
  | NaN => Some NaN
  | Fin e =>
      if is_zero e then Some (Fin 1) else
      match base with
      | NaN => Some NaN
      | PInf => Some (if (0 <? qsign e)%Z then PInf else Fin 0)
      | NInf =>
          Some (if (0 <? qsign e)%Z
                then (if is_odd_integral e then NInf else PInf)
                else Fin 0)
      | Fin b =>
          if is_zero b then Some (if (0 <? qsign e)%Z then Fin 0 else PInf)
          else if is_integral e then Some (num (Qpower b (Qnum (Qred e))))
          else if (qsign b <? 0)%Z then Some NaN
          else if Qeq_bool b 1 then Some (Fin 1)
          else None
      end
  | PInf =>
      match base with
      | NaN => Some NaN
      | PInf => Some PInf
      | NInf => Some PInf
      | Fin b =>
          match (Qabs b ?= 1)%Q with
          | Gt => Some PInf
          | Eq => Some NaN
          | Lt => Some (Fin 0)
          end
      end
  | NInf =>
      match base with
      | NaN => Some NaN
      | PInf => Some (Fin 0)
      | NInf => Some (Fin 0)
      | Fin b =>
          match (Qabs b ?= 1)%Q with
          | Gt => Some (Fin 0)
          | Eq => Some NaN
          | Lt => Some PInf
          end
      end
  end.

End Num.
Export Num.

(** ** JavaScript values *)

Module JS.

(** The values a parsed JSON document is made of, and [undefined]. An
    object is the list of its own properties in insertion order. *)
#[local] Set Warnings "-register-all".
Inductive value : Type :=
  | VUndefined
  | VNull
  | VBool (b : bool)
  | VNum (n : number)
  | VStr (s : string)
  | VArr (elems : list value)
  | VObj (props : list (string * value)).

(** What running a piece of the source gives: a result, a thrown
    [TypeError], or [Unmodelled] when the run needs a conversion this
    development does not represent (string concatenation, the string or
    object to number conversion, an irrational power). *)
Inductive outcome (A : Type) : Type :=
  | Ok (a : A)
  | TypeError
  | Unmodelled.
Arguments Ok {A} a.
Arguments TypeError {A}.
Arguments Unmodelled {A}.

Definition bind {A B : Type} (m : outcome A) (k : A -> outcome B) : outcome B :=
  match m with
  | Ok a => k a
  | TypeError => TypeError
  | Unmodelled => Unmodelled
  end.

Notation "'let*' x ':=' m 'in' k" := (bind m (fun x => k))
  (at level 10, x name, m at level 100, k at level 200).

(** [v == null]: [null] or [undefined]. *)
Definition nullish (v : value) : bool :=
  match v with
  | VUndefined | VNull => true
  | _ => false
  end.

(** ToBoolean. *)
Definition truthy (v : value) : bool :=
  match v with
  | VUndefined | VNull => false
  | VBool b => b
  | VNum (Fin q) => negb (is_zero q)
  | VNum NaN => false
  | VNum _ => true
  | VStr EmptyString => false
  | VStr _ => true
  | VArr _ | VObj _ => true
  end.

Fixpoint lookup (k : string) (props : list (string * value)) : option value :=
  match props with
  | [] => None
  | (k', v) :: rest => if String.eqb k k' then Some v else lookup k rest
  end.

(** [v?.k].  The source only ever reads data fields by name (never an index
    or [length] through this path), which arrays and primitives do not
    have; they answer [undefined]. *)
Definition opt (v : value) (k : string) : value :=
  match v with
  | VObj props => default VUndefined (lookup k props)
  | _ => VUndefined
  end.

(** [v.k]: throws on [null] and [undefined]. *)
Definition get (v : value) (k : string) : outcome value :=
  if nullish v then TypeError else Ok (opt v k).

(** [a ?? b]. *)
Definition coalesce (a b : value) : value := if nullish a then b else a.

(** [a || b]. *)
Definition or (a b : value) : value := if truthy a then a else b.

(** [Array.isArray(v) && v.length], as a condition. *)
Definition nonempty_array (v : value) : bool :=
  match v with
  | VArr (_ :: _) => true
  | _ => false
  end.

(** ToNumber on the primitives other than strings. *)
Definition ToNumber (v : value) : outcome number :=
  match v with
  | VUndefined => Ok NaN
  | VNull => Ok (Fin 0)
  | VBool true => Ok (Fin 1)
  | VBool false => Ok (Fin 0)
  | VNum n => Ok n
  | VStr _ | VArr _ | VObj _ => Unmodelled
  end.

Definition arith (op : number -> number -> number) (a b : value) : outcome number :=
  let* x := ToNumber a in
  let* y := ToNumber b in
  Ok (op x y).

(** [a + b]: numeric unless an operand is (or converts to) a string. *)
Definition plus (a b : value) : outcome number := arith Num.add a b.
(** [a - b], [a * b], [a / b]. *)
Definition minus (a b : value) : outcome number := arith Num.sub a b.
Definition times (a b : value) : outcome number := arith Num.mul a b.
Definition divide (a b : value) : outcome number := arith Num.div a b.

(** [-a]. *)
Definition negate (a : value) : outcome number :=
  let* x := ToNumber a in Ok (Num.neg x).

(** [Math.pow(a, b)]. *)
Definition Math_pow (a b : value) : outcome number :=
  let* x := ToNumber a in
  let* y := ToNumber b in
  match Num.pow x y with
  | Some p => Ok p
  | None => Unmodelled
  end.

(** [arr.map(f)] and [arr.reduce(f, init)] on the element list, with a
    callback that may throw. *)
Fixpoint Array_map (f : value -> outcome value) (l : list value) : outcome (list value) :=
  match l with
  | [] => Ok []
  | u :: rest =>
      let* v := f u in
      let* vs := Array_map f rest in
      Ok (v :: vs)
  end.

Fixpoint Array_reduce {A : Type} (f : A -> value -> outcome A) (l : list value) (init : A)
  : outcome A :=
  match l with
  | [] => Ok init
  | u :: rest => let* s := f init u in Array_reduce f rest s
  end.

(** Number literals. *)
Definition lit (q : Q) : value := VNum (num q).

End JS.
Export JS.

(** ** The client page (src/app/page.jsx) *)

Module Page.

(** The object of one unit, [{ name, rent }]. *)
Definition unit_obj (name rent : value) : value :=
  VObj [("name", name); ("rent", rent)].

(** [[{ name:"Unit A", rent:0 }]] *)
Definition synthetic_units : value :=
  VArr [unit_obj (VStr "Unit A") (lit 0)].

Section MapFromSchema.

(** The string conversion a template literal applies to its holes belongs
    to the language runtime; it only reaches the [beds] label of a rent
    comparable. *)
Variable ToString : value -> string.

(** [pctToDec = (n,def=0) => typeof n==="number" ? n/100 : def]; the numbers
    are the values [VNum _]. *)
Definition pctToDec (n : value) (def : value) : value :=
  match n with
  | VNum a => VNum (Num.div a (num 100))
  | _ => def
  end.

(** [yearsToMonths = (y,def=30) => typeof y==="number" ? y*12 : def*12] *)
Definition yearsToMonths (y : value) (def : number) : value :=
  match y with
  | VNum a => VNum (Num.mul a (num 12))
  | _ => VNum (Num.mul def (num 12))
  end.

Definition map_unit (u : value) : outcome value :=
  let* name := get u "name" in
  let* rent := get u "modeledRentMonthly" in
  Ok (unit_obj name (coalesce rent (lit 0))).

Definition map_comp (c : value) : outcome value :=
  let* address := get c "address" in
  let* askingRent := get c "askingRent" in
  let* beds := get c "beds" in
  let* baths := get c "baths" in
  let* distanceMiles := get c "distanceMiles" in
  let* conditionNote := get c "conditionNote" in
  Ok (VObj [("label", address);
            ("rent", coalesce askingRent (lit 0));
            ("beds", VStr (ToString beds ++ "/" ++ ToString baths));
            ("dist", coalesce distanceMiles (lit 0));
            ("condition", conditionNote)]).

(** [mapFromSchema(x)].  [Array.isArray(x.units)&&x.units.length] holds of
    the non-empty arrays. *)
Definition mapFromSchema (x : value) : outcome value :=
  let* x_units := get x "units" in
  let* units :=
    match x_units with
    | VArr (u :: rest) => let* l := Array_map map_unit (u :: rest) in Ok (VArr l)
    | _ => Ok synthetic_units
    end in
  let* x_rentComps := get x "rentComps" in
  let* comps :=
    match x_rentComps with
    | VArr cs => let* l := Array_map map_comp cs in Ok (VArr l)
    | _ => Ok (VArr [])
    end in
  let subject := opt x "subject" in
  let purchase := opt x "purchase" in
  let operatingAssumptions := opt x "operatingAssumptions" in
  let propertySnapshot := opt x "propertySnapshot" in
  let financing := opt x "financing" in
  Ok (VObj [
    ("address", coalesce (opt subject "address") (VStr ""));
    ("purchasePrice", coalesce (opt purchase "purchasePrice") (lit 0));
    ("closingPct", coalesce (opt purchase "closingCostPct") (lit 0.02));
    ("pointsOnLoanPctOfPrice", coalesce (opt purchase "pointsPct") (lit 0));
    ("vacancyRate", pctToDec (opt operatingAssumptions "vacancyPct") (lit 0.05));
    ("maintPctOfGrossRent",
       pctToDec (opt operatingAssumptions "maintenancePctOfGrossRent") (lit 0.08));
    ("mgmtPctOfEGI", pctToDec (opt operatingAssumptions "managementPctOfEGI") (lit 0.08));
    ("insuranceAnnual", coalesce (opt (opt propertySnapshot "insurance") "dp3Annual") (lit 0));
    ("taxesAnnual", coalesce (opt (opt propertySnapshot "taxes") "annual") (lit 0));
    ("hoaAnnual", coalesce (opt (opt propertySnapshot "hoa") "annual") (lit 0));
    ("utilsAnnualLL", coalesce (opt operatingAssumptions "utilitiesLandlordPaidAnnual") (lit 0));
    ("otherAnnual", coalesce (opt operatingAssumptions "otherOpExAnnual") (lit 0));
    ("units", units);
    ("financing", VObj [
       ("downPct", pctToDec (opt financing "downPaymentPct") (lit 0.25));
       ("rateAnnual", pctToDec (opt financing "rateAnnualPct") (lit 0.077));
       ("termMonths", yearsToMonths (opt financing "termYears") (num 30))]);
    ("comps", comps)]).

End MapFromSchema.

(** [withDefaults(x)].  Every [x.k] is read off a non-nullish [x]; on [null]
    or [undefined] the first read throws. *)
Definition withDefaults (x : value) : outcome value :=
  if nullish x then TypeError else
  let financing := opt x "financing" in
  Ok (VObj [
    ("address", or (opt x "address") (VStr ""));
    ("purchasePrice", coalesce (opt x "purchasePrice") (lit 0));
    ("closingPct", coalesce (opt x "closingPct") (lit 0.03));
    ("pointsOnLoanPctOfPrice", coalesce (opt x "pointsOnLoanPctOfPrice") (lit 0.0075));
    ("vacancyRate", coalesce (opt x "vacancyRate") (lit 0.05));
    ("maintPctOfGrossRent", coalesce (opt x "maintPctOfGrossRent") (lit 0.08));
    ("mgmtPctOfEGI", coalesce (opt x "mgmtPctOfEGI") (lit 0.08));
    ("insuranceAnnual", coalesce (opt x "insuranceAnnual") (lit 0));
    ("taxesAnnual", coalesce (opt x "taxesAnnual") (lit 0));
    ("otherAnnual", coalesce (opt x "otherAnnual") (lit 0));
    ("hoaAnnual", coalesce (opt x "hoaAnnual") (lit 0));
    ("utilsAnnualLL", coalesce (opt x "utilsAnnualLL") (lit 0));
    ("units", if nonempty_array (opt x "units") then opt x "units" else synthetic_units);
    ("financing", VObj [
       ("downPct", coalesce (opt financing "downPct") (lit 0.25));
       ("rateAnnual", coalesce (opt financing "rateAnnual") (lit 0.077));
       ("termMonths", coalesce (opt financing "termMonths") (lit 360))]);
    ("comps", coalesce (opt x "comps") (VArr []))]).

(** The constants [Report] computes before it renders, under the names the
    source gives them. *)
Record Metrics : Type := {
  monthlyRent : number;
  annualGSR : number;
  vacancy : number;
  egi : number;
  maint : number;
  mgmt : number;
  opEx : number;
  noi : number;
  closingCost : number;
  totalCost : number;
  loanAmount : number;
  r : number;
  n : value;
  monthlyPI : number;
  annualDebtService : number;
  dscr : number;
  pointsCost : number;
  cashInvested : number;
  cashFlow : number;
  capRate : number
}.

(** [d.units.reduce((s,u)=>s+(u.rent||0),0)] *)
Definition sum_rents (units : value) : outcome number :=
  match units with
  | VArr us =>
      Array_reduce
        (fun s u => let* rent := get u "rent" in plus (VNum s) (or rent (lit 0)))
        us (num 0)
  | _ => TypeError
  end.

(** The constants of [Report], computed from the defaulted object [d]. *)
Definition metrics_of (d : value) : outcome Metrics :=
  let* d_units := get d "units" in
  let* monthlyRent := sum_rents d_units in
  let* annualGSR := times (VNum monthlyRent) (lit 12) in
  let* d_vacancyRate := get d "vacancyRate" in
  let* vacancy := times (VNum annualGSR) d_vacancyRate in
  let* egi := minus (VNum annualGSR) (VNum vacancy) in
  let* d_maintPctOfGrossRent := get d "maintPctOfGrossRent" in
  let* maint := times (VNum annualGSR) d_maintPctOfGrossRent in
  let* d_mgmtPctOfEGI := get d "mgmtPctOfEGI" in
  let* mgmt := times (VNum egi) d_mgmtPctOfEGI in
  let* d_taxesAnnual := get d "taxesAnnual" in
  let* d_insuranceAnnual := get d "insuranceAnnual" in
  let* d_hoaAnnual := get d "hoaAnnual" in
  let* d_utilsAnnualLL := get d "utilsAnnualLL" in
  let* d_otherAnnual := get d "otherAnnual" in
  let* opEx1 := plus d_taxesAnnual d_insuranceAnnual in
  let* opEx2 := plus (VNum opEx1) d_hoaAnnual in
  let* opEx3 := plus (VNum opEx2) (VNum maint) in
  let* opEx4 := plus (VNum opEx3) (VNum mgmt) in
  let* opEx5 := plus (VNum opEx4) d_utilsAnnualLL in
  let* opEx := plus (VNum opEx5) d_otherAnnual in
  let* noi := minus (VNum egi) (VNum opEx) in
  let* d_purchasePrice := get d "purchasePrice" in
  let* d_closingPct := get d "closingPct" in
  let* closingCost := times d_purchasePrice d_closingPct in
  let* totalCost := plus d_purchasePrice (VNum closingCost) in
  let* d_financing := get d "financing" in
  let* d_downPct := get d_financing "downPct" in
  let* one_minus_down := minus (lit 1) d_downPct in
  let* loanAmount := times d_purchasePrice (VNum one_minus_down) in
  let* d_rateAnnual := get d_financing "rateAnnual" in
  let* r := divide d_rateAnnual (lit 12) in
  let* n := get d_financing "termMonths" in
  let* loan_r := times (VNum loanAmount) (VNum r) in
  let* one_plus_r := plus (lit 1) (VNum r) in
  let* minus_n := negate n in
  let* discount := Math_pow (VNum one_plus_r) (VNum minus_n) in
  let* denominator := minus (lit 1) (VNum discount) in
  let* monthlyPI := divide (VNum loan_r) (VNum denominator) in
  let* annualDebtService := times (VNum monthlyPI) (lit 12) in
  let* dscr := divide (VNum noi) (VNum annualDebtService) in
  let* d_pointsOnLoanPctOfPrice := get d "pointsOnLoanPctOfPrice" in
  let* pointsCost := times d_purchasePrice d_pointsOnLoanPctOfPrice in
  let* down := times d_purchasePrice d_downPct in
  let* cash1 := plus (VNum down) (VNum closingCost) in
  let* cashInvested := plus (VNum cash1) (VNum pointsCost) in
  let* cashFlow := minus (VNum noi) (VNum annualDebtService) in
  let* capRate := divide (VNum noi) (VNum totalCost) in
  Ok {| monthlyRent := monthlyRent; annualGSR := annualGSR; vacancy := vacancy;
        egi := egi; maint := maint; mgmt := mgmt; opEx := opEx; noi := noi;
        closingCost := closingCost; totalCost := totalCost;
        loanAmount := loanAmount; r := r; n := n; monthlyPI := monthlyPI;
        annualDebtService := annualDebtService; dscr := dscr;
        pointsCost := pointsCost; cashInvested := cashInvested;
        cashFlow := cashFlow; capRate := capRate |}.

(** The body of [Report({ data })] up to its [return]:
    [const d = useMemo(()=>withDefaults(data),[data])], then the constants. *)
Definition Report (data : value) : outcome Metrics :=
  let* d := withDefaults data in
  metrics_of d.

(** The renderer's own guards: [fmtUSD] prints a dash when
    [n == null || isNaN(n)], and the DSCR tile prints [(dscr||0).toFixed(2)]. *)
Definition fmtUSD_is_dash (v : value) : outcome bool :=
  if nullish v then Ok true
  else let* x := ToNumber v in Ok (is_nan x).

Definition dscr_shown (dscr : number) : value := or (VNum dscr) (lit 0).

End Page.
Export Page.


(** ** The calculator's inputs as the specification types them *)

Module Spec.

(** InvestmentInputs: finite numbers throughout, an integral term.  A unit
    may come without a name, as in the worked scenario P6. *)
Record Unit : Type := { name : option string; monthlyRent : Q }.

Record InvestmentInputs : Type := {
  purchasePrice : Q;
  closingCostPct : Q;
  pointsPct : Q;
  vacancyRate : Q;
  maintenancePctOfGrossRent : Q;
  managementPctOfEGI : Q;
  taxesAnnual : Q;
  insuranceAnnual : Q;
  hoaAnnual : Q;
  utilitiesLandlordAnnual : Q;
  otherOpExAnnual : Q;
  units : list Unit;
  downPaymentPct : Q;
  annualRatePct : Q;
  termMonths : Z
}.

Definition unit_to_js (u : Unit) : value :=
  VObj (match name u with
        | Some s => [("name", VStr s)]
        | None => []
        end ++ [("rent", lit (monthlyRent u))])%list.

(** The object the page's calculator is handed for these inputs, under the
    field names the source uses. *)
Definition to_js (i : InvestmentInputs) : value :=
  VObj [
    ("purchasePrice", lit (purchasePrice i));
    ("closingPct", lit (closingCostPct i));
    ("pointsOnLoanPctOfPrice", lit (pointsPct i));
    ("vacancyRate", lit (vacancyRate i));
    ("maintPctOfGrossRent", lit (maintenancePctOfGrossRent i));
    ("mgmtPctOfEGI", lit (managementPctOfEGI i));
    ("insuranceAnnual", lit (insuranceAnnual i));
    ("taxesAnnual", lit (taxesAnnual i));
    ("otherAnnual", lit (otherOpExAnnual i));
    ("hoaAnnual", lit (hoaAnnual i));
    ("utilsAnnualLL", lit (utilitiesLandlordAnnual i));
    ("units", VArr (List.map unit_to_js (units i)));
    ("financing", VObj [
       ("downPct", lit (downPaymentPct i));
       ("rateAnnual", lit (annualRatePct i));
       ("termMonths", lit (inject_Z (termMonths i)))])].

(** Steps 1 to 15 of the specification's algorithm, in exact arithmetic. *)
Definition total_monthly_rent (i : InvestmentInputs) : Q :=
  fold_right (fun u acc => monthlyRent u + acc) 0 (units i).

Definition grossScheduledRentAnnual (i : InvestmentInputs) : Q :=
  12 * total_monthly_rent i.

Definition effectiveGrossIncomeAnnual (i : InvestmentInputs) : Q :=
  grossScheduledRentAnnual i * (1 - vacancyRate i).

Definition maintenanceAnnual (i : InvestmentInputs) : Q :=
  grossScheduledRentAnnual i * maintenancePctOfGrossRent i.

Definition managementAnnual (i : InvestmentInputs) : Q :=
  effectiveGrossIncomeAnnual i * managementPctOfEGI i.

Definition operatingExpensesAnnual (i : InvestmentInputs) : Q :=
  taxesAnnual i + insuranceAnnual i + hoaAnnual i + maintenanceAnnual i
  + managementAnnual i + utilitiesLandlordAnnual i + otherOpExAnnual i.

Definition netOperatingIncomeAnnual (i : InvestmentInputs) : Q :=
  effectiveGrossIncomeAnnual i - operatingExpensesAnnual i.

Definition totalAcquisitionCost (i : InvestmentInputs) : Q :=
  purchasePrice i + purchasePrice i * closingCostPct i.

Definition loanAmount (i : InvestmentInputs) : Q :=
  purchasePrice i * (1 - downPaymentPct i).

Definition monthlyRate (i : InvestmentInputs) : Q := annualRatePct i / 12.

Definition amortizingPayment (i : InvestmentInputs) : Q :=
  loanAmount i * monthlyRate i
  / (1 - Qpower (1 + monthlyRate i) (- termMonths i)).

Definition annualDebtService (i : InvestmentInputs) : Q :=
  amortizingPayment i * 12.

(** Inputs with the documented defaults for every field not given. *)
Definition inputs (price : Q) (us : list Unit) (taxes insurance : Q)
    (vacancy down rate : Q) (term : Z) : InvestmentInputs :=
  {| purchasePrice := price;
     closingCostPct := 0.03;
     pointsPct := 0.0075;
     vacancyRate := vacancy;
     maintenancePctOfGrossRent := 0.08;
     managementPctOfEGI := 0.08;
     taxesAnnual := taxes;
     insuranceAnnual := insurance;
     hoaAnnual := 0;
     utilitiesLandlordAnnual := 0;
     otherOpExAnnual := 0;
     units := us;
     downPaymentPct := down;
     annualRatePct := rate;
     termMonths := term |}.

Definition with_vacancy (i : InvestmentInputs) (v : Q) : InvestmentInputs :=
  {| purchasePrice := purchasePrice i;
     closingCostPct := closingCostPct i;
     pointsPct := pointsPct i;
     vacancyRate := v;
     maintenancePctOfGrossRent := maintenancePctOfGrossRent i;
     managementPctOfEGI := managementPctOfEGI i;
     taxesAnnual := taxesAnnual i;
     insuranceAnnual := insuranceAnnual i;
     hoaAnnual := hoaAnnual i;
     utilitiesLandlordAnnual := utilitiesLandlordAnnual i;
     otherOpExAnnual := otherOpExAnnual i;
     units := units i;
     downPaymentPct := downPaymentPct i;
     annualRatePct := annualRatePct i;
     termMonths := termMonths i |}.

End Spec.

(** ** The report schema contract *)

Module Schema.

Definition properties_of (v : value) : list (string * value) :=
  match v with
  | VObj ps => ps
  | _ => []
  end.

Definition keys (v : value) : list string := List.map fst (properties_of v).

(** The strings of an array of strings. *)
Definition strings_of (v : value) : list string :=
  match v with
  | VArr l => flat_map (fun e => match e with VStr s => [s] | _ => [] end) l
  | _ => []
  end.

(** The keywords of one schema node. *)
Definition required (s : value) : list string := strings_of (opt s "required").

Definition property_names (s : value) : list string := keys (opt s "properties").

Definition property (s : value) (k : string) : value := opt (opt s "properties") k.

Definition forbids_additional (s : value) : bool :=
  match opt s "additionalProperties" with
  | VBool false => true
  | _ => false
  end.

Definition is_object_schema (s : value) : bool :=
  match opt s "type" with
  | VStr t => String.eqb t "object"
  | _ => false
  end.

(** A JSON Pointer fragment such as ["#/$defs/unit"], split at the slashes
    and followed from the schema root. *)
Fixpoint segments (s : string) : list string :=
  match s with
  | EmptyString => [EmptyString]
  | String c rest =>
      if Ascii.eqb c "/"%char then EmptyString :: segments rest
      else match segments rest with
           | seg :: more => String c seg :: more
           | [] => [String c EmptyString]
           end
  end.

Fixpoint walk (v : value) (path : list string) : option value :=
  match path with
  | [] => Some v
  | k :: rest =>
      match v with
      | VObj ps =>
          match lookup k ps with
          | Some v' => walk v' rest
          | None => None
          end
      | _ => None
      end
  end.

Definition resolve (root : value) (ref : string) : option value :=
  match segments ref with
  | "#" :: path => walk root path
  | _ => None
  end.

(** The node a schema stands for: the target of its [$ref] when it has one. *)
Definition deref (root s : value) : option value :=
  match opt s "$ref" with
  | VStr ref => resolve root ref
  | _ => Some s
  end.

(** The schema nodes of the tree under [s]: [s] itself (dereferenced), the
    schemas of its [properties] and of its [items], and so on below them. *)
Inductive traversal : Type :=
  | Nodes (l : list value)
  | Dangling (ref : value)
  | Exhausted.

Fixpoint collect (f : value -> traversal) (l : list value) : traversal :=
  match l with
  | [] => Nodes []
  | c :: rest =>
      match f c with
      | Nodes a =>
          match collect f rest with
          | Nodes b => Nodes (a ++ b)%list
          | other => other
          end
      | other => other
      end
  end.

Fixpoint subschemas (fuel : nat) (root s : value) : traversal :=
  match fuel with
  | O => Exhausted
  | S f =>
      match deref root s with
      | None => Dangling (opt s "$ref")
      | Some s' =>
          let children :=
            (List.map snd (properties_of (opt s' "properties"))
             ++ match opt s' "items" with
                | VUndefined => []
                | items => [items]
                end)%list in
          match collect (subschemas f root) children with
          | Nodes l => Nodes (s' :: l)
          | other => other
          end
      end
  end.

Definition same_names (a b : list string) : bool :=
  forallb (fun x => existsb (String.eqb x) b) a
  && forallb (fun x => existsb (String.eqb x) a) b.

(** An object schema that requires [names], declares no other property and
    forbids additional ones: its instances carry exactly [names]. *)
Definition exactly (s : value) (names : list string) : bool :=
  is_object_schema s
  && forbids_additional s
  && same_names (required s) names
  && same_names (property_names s) names.

(** Every object schema of the tree forbids additional properties (and
    every reference in the tree resolves). *)
Definition closed_everywhere (root : value) : bool :=
  match subschemas 8 root root with
  | Nodes l => forallb (fun s => implb (is_object_schema s) (forbids_additional s)) l
  | _ => false
  end.

Definition top_level_keys : list string :=
  ["version"; "reportMeta"; "subject"; "purchase"; "propertySnapshot"; "units";
   "rents"; "rentComps"; "operatingAssumptions"; "financing"; "totals";
   "sensitivity"; "negotiation"; "glossary"].

Definition scenario_names : list string :=
  ["rentMinus10"; "baseCase"; "rentPlus10"; "opExMinus10"; "opExPlus10"].

Definition scenario_fields : list string :=
  ["noiAnnual"; "capRatePct"; "dscr"; "cashFlowAnnual"].

(** Each named scenario stands for an object schema with exactly the four
    fields. *)
Definition scenarios_uniform (root : value) : bool :=
  forallb
    (fun k =>
       match deref root (property (property root "sensitivity") k) with
       | Some sc => exactly sc scenario_fields
       | None => false
       end)
    scenario_names.

(** The contract of the specification's section 4.1, as a check on a schema. *)
Definition contract (root : value) : bool :=
  exactly root top_level_keys
  && closed_everywhere root
  && match opt (property root "units") "minItems" with
     | VNum (Fin q) => Qeq_bool q 1
     | _ => false
     end
  && match opt (property root "rentComps") "minItems" with
     | VNum (Fin q) => Qeq_bool q 5
     | _ => false
     end
  && exactly (property root "sensitivity") scenario_names
  && scenarios_uniform root.

End Schema.

(** [PROPERTY_REPORT_JSON_SCHEMA] (src/unnamed/part_000). *)
Definition PROPERTY_REPORT_JSON_SCHEMA : value :=
  VObj [
    ("type", VStr "object");
    ("additionalProperties", VBool false);
    ("required", VArr [
      VStr "version"; VStr "reportMeta"; VStr "subject"; VStr "purchase";
      VStr "propertySnapshot"; VStr "units"; VStr "rents"; VStr "rentComps";
      VStr "operatingAssumptions"; VStr "financing"; VStr "totals"; VStr "sensitivity";
      VStr "negotiation"; VStr "glossary"]);
    ("properties", VObj [
      ("version", VObj [("type", VStr "string"); ("const", VStr "1.0")]);
      ("reportMeta", VObj [
        ("type", VStr "object");
        ("additionalProperties", VBool false);
        ("required", VArr [VStr "generatedAt"; VStr "targetCapPct"; VStr "currency"; VStr "locale"]);
        ("properties", VObj [
          ("generatedAt", VObj [("type", VStr "string"); ("format", VStr "date-time")]);
          ("targetCapPct", VObj [("type", VStr "number"); ("minimum", lit 0)]);
          ("currency", VObj [("type", VStr "string"); ("minLength", lit 1)]);
          ("locale", VObj [("type", VStr "string"); ("minLength", lit 2)])])]);
      ("subject", VObj [
        ("type", VStr "object");
        ("additionalProperties", VBool false);
        ("required", VArr [VStr "address"]);
        ("properties", VObj [
          ("address", VObj [("type", VStr "string"); ("minLength", lit 3)]);
          ("unitLabel", VObj [("type", VStr "string")]);
          ("city", VObj [("type", VStr "string")]);
          ("state", VObj [("type", VStr "string")]);
          ("zip", VObj [("type", VStr "string")]);
          ("county", VObj [("type", VStr "string")]);
          ("parcelId", VObj [("type", VStr "string")]);
          ("mlsId", VObj [("type", VStr "string")]);
          ("geo", VObj [
            ("type", VStr "object");
            ("additionalProperties", VBool false);
            ("properties", VObj [
              ("lat", VObj [
                ("type", VArr [VStr "number"; VStr "null"]);
                ("minimum", lit (-90));
                ("maximum", lit 90)]);
              ("lng", VObj [
                ("type", VArr [VStr "number"; VStr "null"]);
                ("minimum", lit (-180));
                ("maximum", lit 180)])])])])]);
      ("purchase", VObj [
        ("type", VStr "object");
        ("additionalProperties", VBool false);
        ("required", VArr [
          VStr "purchasePrice"; VStr "rehabBudget"; VStr "closingCostPct";
          VStr "pointsPct"; VStr "totalCost"]);
        ("properties", VObj [
          ("purchasePrice", VObj [("type", VArr [VStr "number"; VStr "null"]); ("minimum", lit 0)]);
          ("rehabBudget", VObj [("type", VStr "number"); ("minimum", lit 0)]);
          ("closingCostPct", VObj [("type", VStr "number"); ("minimum", lit 0)]);
          ("pointsPct", VObj [("type", VStr "number"); ("minimum", lit 0)]);
          ("totalCost", VObj [("type", VArr [VStr "number"; VStr "null"]); ("minimum", lit 0)])])]);
      ("propertySnapshot", VObj [
        ("type", VStr "object");
        ("additionalProperties", VBool false);
        ("required", VArr [
          VStr "propertyType"; VStr "unitMix"; VStr "beds"; VStr "baths"; VStr "hoa";
          VStr "taxes"; VStr "insurance"; VStr "recentUpdates"]);
        ("properties", VObj [
          ("propertyType", VObj [("type", VStr "string")]);
          ("unitMix", VObj [("type", VStr "string")]);
          ("beds", VObj [("type", VStr "number"); ("minimum", lit 0)]);
          ("baths", VObj [("type", VStr "number"); ("minimum", lit 0)]);
          ("livingSqft", VObj [("type", VArr [VStr "number"; VStr "null"]); ("minimum", lit 0)]);
          ("yearBuilt", VObj [
            ("type", VArr [VStr "integer"; VStr "null"]);
            ("minimum", lit 1800);
            ("maximum", lit 2100)]);
          ("lotSizeSqft", VObj [("type", VArr [VStr "number"; VStr "null"]); ("minimum", lit 0)]);
          ("hoa", VObj [
            ("type", VStr "object");
            ("additionalProperties", VBool false);
            ("required", VArr [VStr "hasHoa"; VStr "annual"; VStr "monthly"; VStr "name"; VStr "notes"]);
            ("properties", VObj [
              ("hasHoa", VObj [("type", VStr "boolean")]);
              ("annual", VObj [("type", VStr "number"); ("minimum", lit 0)]);
              ("monthly", VObj [("type", VStr "number"); ("minimum", lit 0)]);
              ("name", VObj [("type", VStr "string")]);
              ("notes", VObj [("type", VStr "string")])])]);
          ("taxes", VObj [
            ("type", VStr "object");
            ("additionalProperties", VBool false);
            ("required", VArr [VStr "annual"; VStr "year"]);
            ("properties", VObj [
              ("annual", VObj [("type", VArr [VStr "number"; VStr "null"]); ("minimum", lit 0)]);
              ("year", VObj [
                ("type", VArr [VStr "integer"; VStr "null"]);
                ("minimum", lit 2000);
                ("maximum", lit 2100)])])]);
          ("insurance", VObj [
            ("type", VStr "object");
            ("additionalProperties", VBool false);
            ("required", VArr [VStr "dp3Annual"; VStr "notes"]);
            ("properties", VObj [
              ("dp3Annual", VObj [("type", VArr [VStr "number"; VStr "null"]); ("minimum", lit 0)]);
              ("notes", VObj [("type", VStr "string")])])]);
          ("recentUpdates", VObj [("type", VStr "array"); ("items", VObj [("type", VStr "string")])])])]);
      ("units", VObj [
        ("type", VStr "array");
        ("minItems", lit 1);
        ("items", VObj [
          ("type", VStr "object");
          ("additionalProperties", VBool false);
          ("required", VArr [
            VStr "name"; VStr "beds"; VStr "baths"; VStr "sqft"; VStr "modeledRentMonthly";
            VStr "leaseTermMonths"; VStr "notes"]);
          ("properties", VObj [
            ("name", VObj [("type", VStr "string")]);
            ("beds", VObj [("type", VStr "number"); ("minimum", lit 0)]);
            ("baths", VObj [("type", VStr "number"); ("minimum", lit 0)]);
            ("sqft", VObj [("type", VArr [VStr "number"; VStr "null"]); ("minimum", lit 0)]);
            ("modeledRentMonthly", VObj [("type", VArr [VStr "number"; VStr "null"]); ("minimum", lit 0)]);
            ("leaseTermMonths", VObj [("type", VStr "integer"); ("minimum", lit 1)]);
            ("notes", VObj [("type", VStr "string")])])])]);
      ("rents", VObj [
        ("type", VStr "object");
        ("additionalProperties", VBool false);
        ("required", VArr [
          VStr "benchmarkMedian"; VStr "qualityAdjustmentPct";
          VStr "modeledMarketRentMonthly"; VStr "grossScheduledRentMonthly"]);
        ("properties", VObj [
          ("benchmarkMedian", VObj [("type", VArr [VStr "number"; VStr "null"]); ("minimum", lit 0)]);
          ("qualityAdjustmentPct", VObj [("type", VStr "number")]);
          ("modeledMarketRentMonthly", VObj [("type", VArr [VStr "number"; VStr "null"]); ("minimum", lit 0)]);
          ("grossScheduledRentMonthly", VObj [("type", VArr [VStr "number"; VStr "null"]); ("minimum", lit 0)])])]);
      ("rentComps", VObj [
        ("type", VStr "array");
        ("minItems", lit 5);
        ("items", VObj [
          ("type", VStr "object");
          ("additionalProperties", VBool false);
          ("required", VArr [
            VStr "address"; VStr "beds"; VStr "baths"; VStr "askingRent";
            VStr "distanceMiles"; VStr "conditionNote"]);
          ("properties", VObj [
            ("address", VObj [("type", VStr "string"); ("minLength", lit 3)]);
            ("beds", VObj [("type", VStr "number"); ("minimum", lit 0)]);
            ("baths", VObj [("type", VStr "number"); ("minimum", lit 0)]);
            ("askingRent", VObj [("type", VArr [VStr "number"; VStr "null"]); ("minimum", lit 0)]);
            ("distanceMiles", VObj [("type", VArr [VStr "number"; VStr "null"]); ("minimum", lit 0)]);
            ("conditionNote", VObj [("type", VStr "string")])])])]);
      ("operatingAssumptions", VObj [
        ("type", VStr "object");
        ("additionalProperties", VBool false);
        ("required", VArr [
          VStr "vacancyPct"; VStr "maintenancePctOfGrossRent"; VStr "managementPctOfEGI";
          VStr "selfManaged"; VStr "utilitiesLandlordPaidAnnual"; VStr "otherOpExAnnual"]);
        ("properties", VObj [
          ("vacancyPct", VObj [("type", VStr "number"); ("minimum", lit 0)]);
          ("maintenancePctOfGrossRent", VObj [("type", VStr "number"); ("minimum", lit 0)]);
          ("managementPctOfEGI", VObj [("type", VStr "number"); ("minimum", lit 0)]);
          ("selfManaged", VObj [("type", VStr "boolean")]);
          ("utilitiesLandlordPaidAnnual", VObj [("type", VStr "number"); ("minimum", lit 0)]);
          ("otherOpExAnnual", VObj [("type", VStr "number"); ("minimum", lit 0)])])]);
      ("financing", VObj [
        ("type", VStr "object");
        ("additionalProperties", VBool false);
        ("required", VArr [
          VStr "downPaymentPct"; VStr "rateAnnualPct"; VStr "termYears"; VStr "loanAmount";
          VStr "monthlyPI"; VStr "annualDebtService"]);
        ("properties", VObj [
          ("downPaymentPct", VObj [("type", VStr "number"); ("minimum", lit 0)]);
          ("rateAnnualPct", VObj [("type", VStr "number"); ("minimum", lit 0)]);
          ("termYears", VObj [("type", VStr "integer"); ("minimum", lit 1)]);
          ("loanAmount", VObj [("type", VArr [VStr "number"; VStr "null"]); ("minimum", lit 0)]);
          ("monthlyPI", VObj [("type", VArr [VStr "number"; VStr "null"]); ("minimum", lit 0)]);
          ("annualDebtService", VObj [("type", VArr [VStr "number"; VStr "null"]); ("minimum", lit 0)])])]);
      ("totals", VObj [
        ("type", VStr "object");
        ("additionalProperties", VBool false);
        ("required", VArr [
          VStr "egiAnnual"; VStr "opExAnnual"; VStr "noiAnnual"; VStr "capRatePct";
          VStr "dscr"; VStr "cashFlowAnnual"; VStr "cashOnCashRoiPct";
          VStr "onePercentRulePct"]);
        ("properties", VObj [
          ("egiAnnual", VObj [("type", VArr [VStr "number"; VStr "null"]); ("minimum", lit 0)]);
          ("opExAnnual", VObj [("type", VArr [VStr "number"; VStr "null"]); ("minimum", lit 0)]);
          ("noiAnnual", VObj [("type", VArr [VStr "number"; VStr "null"]); ("minimum", lit 0)]);
          ("capRatePct", VObj [("type", VArr [VStr "number"; VStr "null"]); ("minimum", lit 0)]);
          ("dscr", VObj [("type", VArr [VStr "number"; VStr "null"]); ("minimum", lit 0)]);
          ("cashFlowAnnual", VObj [("type", VArr [VStr "number"; VStr "null"]); ("minimum", lit (-1000000000))]);
          ("cashOnCashRoiPct", VObj [("type", VArr [VStr "number"; VStr "null"])]);
          ("onePercentRulePct", VObj [("type", VArr [VStr "number"; VStr "null"]); ("minimum", lit 0)])])]);
      ("sensitivity", VObj [
        ("type", VStr "object");
        ("additionalProperties", VBool false);
        ("required", VArr [
          VStr "rentMinus10"; VStr "baseCase"; VStr "rentPlus10"; VStr "opExMinus10";
          VStr "opExPlus10"]);
        ("properties", VObj [
          ("rentMinus10", VObj [
            ("type", VStr "object");
            ("additionalProperties", VBool false);
            ("required", VArr [VStr "noiAnnual"; VStr "capRatePct"; VStr "dscr"; VStr "cashFlowAnnual"]);
            ("properties", VObj [
              ("noiAnnual", VObj [("type", VArr [VStr "number"; VStr "null"])]);
              ("capRatePct", VObj [("type", VArr [VStr "number"; VStr "null"])]);
              ("dscr", VObj [("type", VArr [VStr "number"; VStr "null"])]);
              ("cashFlowAnnual", VObj [("type", VArr [VStr "number"; VStr "null"])])])]);
          ("baseCase", VObj [
            ("type", VStr "object");
            ("additionalProperties", VBool false);
            ("required", VArr [VStr "noiAnnual"; VStr "capRatePct"; VStr "dscr"; VStr "cashFlowAnnual"]);
            ("properties", VObj [
              ("noiAnnual", VObj [("type", VArr [VStr "number"; VStr "null"])]);
              ("capRatePct", VObj [("type", VArr [VStr "number"; VStr "null"])]);
              ("dscr", VObj [("type", VArr [VStr "number"; VStr "null"])]);
              ("cashFlowAnnual", VObj [("type", VArr [VStr "number"; VStr "null"])])])]);
          ("rentPlus10", VObj [
            ("type", VStr "object");
            ("additionalProperties", VBool false);
            ("required", VArr [VStr "noiAnnual"; VStr "capRatePct"; VStr "dscr"; VStr "cashFlowAnnual"]);
            ("properties", VObj [
              ("noiAnnual", VObj [("type", VArr [VStr "number"; VStr "null"])]);
              ("capRatePct", VObj [("type", VArr [VStr "number"; VStr "null"])]);
              ("dscr", VObj [("type", VArr [VStr "number"; VStr "null"])]);
              ("cashFlowAnnual", VObj [("type", VArr [VStr "number"; VStr "null"])])])]);
          ("opExMinus10", VObj [
            ("type", VStr "object");
            ("additionalProperties", VBool false);
            ("required", VArr [VStr "noiAnnual"; VStr "capRatePct"; VStr "dscr"; VStr "cashFlowAnnual"]);
            ("properties", VObj [
              ("noiAnnual", VObj [("type", VArr [VStr "number"; VStr "null"])]);
              ("capRatePct", VObj [("type", VArr [VStr "number"; VStr "null"])]);
              ("dscr", VObj [("type", VArr [VStr "number"; VStr "null"])]);
              ("cashFlowAnnual", VObj [("type", VArr [VStr "number"; VStr "null"])])])]);
          ("opExPlus10", VObj [
            ("type", VStr "object");
            ("additionalProperties", VBool false);
            ("required", VArr [VStr "noiAnnual"; VStr "capRatePct"; VStr "dscr"; VStr "cashFlowAnnual"]);
            ("properties", VObj [
              ("noiAnnual", VObj [("type", VArr [VStr "number"; VStr "null"])]);
              ("capRatePct", VObj [("type", VArr [VStr "number"; VStr "null"])]);
              ("dscr", VObj [("type", VArr [VStr "number"; VStr "null"])]);
              ("cashFlowAnnual", VObj [("type", VArr [VStr "number"; VStr "null"])])])])])]);
      ("negotiation", VObj [
        ("type", VStr "object");
        ("additionalProperties", VBool false);
        ("required", VArr [VStr "targetCapPct"; VStr "maxPurchasePriceAtTargetCap"; VStr "assumptions"]);
        ("properties", VObj [
          ("targetCapPct", VObj [("type", VStr "number"); ("minimum", lit 0)]);
          ("maxPurchasePriceAtTargetCap", VObj [("type", VArr [VStr "number"; VStr "null"]); ("minimum", lit 0)]);
          ("assumptions", VObj [
            ("type", VStr "object");
            ("additionalProperties", VBool false);
            ("required", VArr [VStr "closingCostPct"; VStr "pointsPct"]);
            ("properties", VObj [
              ("closingCostPct", VObj [("type", VStr "number"); ("minimum", lit 0)]);
              ("pointsPct", VObj [("type", VStr "number"); ("minimum", lit 0)])])])])]);
      ("glossary", VObj [
        ("type", VStr "object");
        ("additionalProperties", VBool false);
        ("required", VArr [VStr "EGI"; VStr "OpEx"; VStr "NOI"; VStr "Cap"; VStr "DSCR"; VStr "CoC"]);
        ("properties", VObj [
          ("EGI", VObj [("type", VStr "string")]);
          ("OpEx", VObj [("type", VStr "string")]);
          ("NOI", VObj [("type", VStr "string")]);
          ("Cap", VObj [("type", VStr "string")]);
          ("DSCR", VObj [("type", VStr "string")]);
          ("CoC", VObj [("type", VStr "string")])])])])].

(** [PROPERTY_REPORT_SCHEMA] (src/unnamed/part_001): the name, the [strict]
    flag and, under [schema], the JSON Schema itself. *)
Definition PROPERTY_REPORT_SCHEMA : value :=
  VObj [
    ("name", VStr "property_investment_report_v1");
    ("strict", VBool false);
    ("schema", VObj [
      ("type", VStr "object");
      ("additionalProperties", VBool false);
      ("required", VArr [
        VStr "version"; VStr "reportMeta"; VStr "subject"; VStr "purchase";
        VStr "propertySnapshot"; VStr "units"; VStr "rents"; VStr "rentComps";
        VStr "operatingAssumptions"; VStr "financing"; VStr "totals"; VStr "sensitivity";
        VStr "negotiation"; VStr "glossary"]);
      ("properties", VObj [
        ("version", VObj [("type", VStr "string"); ("const", VStr "1.0")]);
        ("reportMeta", VObj [
          ("type", VStr "object");
          ("additionalProperties", VBool false);
          ("required", VArr [VStr "generatedAt"; VStr "targetCapPct"; VStr "currency"; VStr "locale"]);
          ("properties", VObj [
            ("generatedAt", VObj [("type", VStr "string"); ("format", VStr "date-time")]);
            ("targetCapPct", VObj [("type", VStr "number"); ("minimum", lit 0)]);
            ("currency", VObj [("type", VStr "string"); ("minLength", lit 1)]);
            ("locale", VObj [("type", VStr "string"); ("minLength", lit 2)])])]);
        ("subject", VObj [
          ("type", VStr "object");
          ("additionalProperties", VBool false);
          ("required", VArr [VStr "address"]);
          ("properties", VObj [
            ("address", VObj [("type", VStr "string"); ("minLength", lit 3)]);
            ("unitLabel", VObj [("type", VStr "string")]);
            ("city", VObj [("type", VStr "string")]);
            ("state", VObj [("type", VStr "string")]);
            ("zip", VObj [("type", VStr "string")]);
            ("county", VObj [("type", VStr "string")]);
            ("parcelId", VObj [("type", VStr "string")]);
            ("mlsId", VObj [("type", VStr "string")]);
            ("geo", VObj [
              ("type", VStr "object");
              ("additionalProperties", VBool false);
              ("properties", VObj [
                ("lat", VObj [
                  ("type", VArr [VStr "number"; VStr "null"]);
                  ("minimum", lit (-90));
                  ("maximum", lit 90)]);
                ("lng", VObj [
                  ("type", VArr [VStr "number"; VStr "null"]);
                  ("minimum", lit (-180));
                  ("maximum", lit 180)])])])])]);
        ("purchase", VObj [
          ("type", VStr "object");
          ("additionalProperties", VBool false);
          ("required", VArr [
            VStr "purchasePrice"; VStr "rehabBudget"; VStr "closingCostPct";
            VStr "pointsPct"; VStr "totalCost"]);
          ("properties", VObj [
            ("purchasePrice", VObj [("type", VArr [VStr "number"; VStr "null"]); ("minimum", lit 0)]);
            ("rehabBudget", VObj [("type", VStr "number"); ("minimum", lit 0)]);
            ("closingCostPct", VObj [("type", VStr "number"); ("minimum", lit 0)]);
            ("pointsPct", VObj [("type", VStr "number"); ("minimum", lit 0)]);
            ("totalCost", VObj [("type", VArr [VStr "number"; VStr "null"]); ("minimum", lit 0)])])]);
        ("propertySnapshot", VObj [
          ("type", VStr "object");
          ("additionalProperties", VBool false);
          ("required", VArr [
            VStr "propertyType"; VStr "unitMix"; VStr "beds"; VStr "baths"; VStr "hoa";
            VStr "taxes"; VStr "insurance"; VStr "recentUpdates"]);
          ("properties", VObj [
            ("propertyType", VObj [("type", VStr "string")]);
            ("unitMix", VObj [("type", VStr "string")]);
            ("beds", VObj [("type", VStr "number"); ("minimum", lit 0)]);
            ("baths", VObj [("type", VStr "number"); ("minimum", lit 0)]);
            ("livingSqft", VObj [("type", VArr [VStr "number"; VStr "null"]); ("minimum", lit 0)]);
            ("yearBuilt", VObj [
              ("type", VArr [VStr "integer"; VStr "null"]);
              ("minimum", lit 1800);
              ("maximum", lit 2100)]);
            ("lotSizeSqft", VObj [("type", VArr [VStr "number"; VStr "null"]); ("minimum", lit 0)]);
            ("hoa", VObj [
              ("type", VStr "object");
              ("additionalProperties", VBool false);
              ("required", VArr [VStr "hasHoa"; VStr "annual"; VStr "monthly"; VStr "name"; VStr "notes"]);
              ("properties", VObj [
                ("hasHoa", VObj [("type", VStr "boolean")]);
                ("annual", VObj [("type", VStr "number"); ("minimum", lit 0)]);
                ("monthly", VObj [("type", VStr "number"); ("minimum", lit 0)]);
                ("name", VObj [("type", VStr "string")]);
                ("notes", VObj [("type", VStr "string")])])]);
            ("taxes", VObj [
              ("type", VStr "object");
              ("additionalProperties", VBool false);
              ("required", VArr [VStr "annual"; VStr "year"]);
              ("properties", VObj [
                ("annual", VObj [("type", VArr [VStr "number"; VStr "null"]); ("minimum", lit 0)]);
                ("year", VObj [
                  ("type", VArr [VStr "integer"; VStr "null"]);
                  ("minimum", lit 2000);
                  ("maximum", lit 2100)])])]);
            ("insurance", VObj [
              ("type", VStr "object");
              ("additionalProperties", VBool false);
              ("required", VArr [VStr "dp3Annual"; VStr "notes"]);
              ("properties", VObj [
                ("dp3Annual", VObj [("type", VArr [VStr "number"; VStr "null"]); ("minimum", lit 0)]);
                ("notes", VObj [("type", VStr "string")])])]);
            ("recentUpdates", VObj [("type", VStr "array"); ("items", VObj [("type", VStr "string")])])])]);
        ("units", VObj [
          ("type", VStr "array");
          ("minItems", lit 1);
          ("items", VObj [("$ref", VStr "#/$defs/unit")])]);
        ("rents", VObj [
          ("type", VStr "object");
          ("additionalProperties", VBool false);
          ("required", VArr [
            VStr "benchmarkMedian"; VStr "qualityAdjustmentPct";
            VStr "modeledMarketRentMonthly"; VStr "grossScheduledRentMonthly"]);
          ("properties", VObj [
            ("benchmarkMedian", VObj [("type", VArr [VStr "number"; VStr "null"]); ("minimum", lit 0)]);
            ("qualityAdjustmentPct", VObj [("type", VStr "number")]);
            ("modeledMarketRentMonthly", VObj [("type", VArr [VStr "number"; VStr "null"]); ("minimum", lit 0)]);
            ("grossScheduledRentMonthly", VObj [("type", VArr [VStr "number"; VStr "null"]); ("minimum", lit 0)])])]);
        ("rentComps", VObj [
          ("type", VStr "array");
          ("minItems", lit 5);
          ("items", VObj [("$ref", VStr "#/$defs/rentComp")])]);
        ("operatingAssumptions", VObj [
          ("type", VStr "object");
          ("additionalProperties", VBool false);
          ("required", VArr [
            VStr "vacancyPct"; VStr "maintenancePctOfGrossRent"; VStr "managementPctOfEGI";
            VStr "selfManaged"; VStr "utilitiesLandlordPaidAnnual"; VStr "otherOpExAnnual"]);
          ("properties", VObj [
            ("vacancyPct", VObj [("type", VStr "number"); ("minimum", lit 0)]);
            ("maintenancePctOfGrossRent", VObj [("type", VStr "number"); ("minimum", lit 0)]);
            ("managementPctOfEGI", VObj [("type", VStr "number"); ("minimum", lit 0)]);
            ("selfManaged", VObj [("type", VStr "boolean")]);
            ("utilitiesLandlordPaidAnnual", VObj [("type", VStr "number"); ("minimum", lit 0)]);
            ("otherOpExAnnual", VObj [("type", VStr "number"); ("minimum", lit 0)])])]);
        ("financing", VObj [
          ("type", VStr "object");
          ("additionalProperties", VBool false);
          ("required", VArr [
            VStr "downPaymentPct"; VStr "rateAnnualPct"; VStr "termYears";
            VStr "loanAmount"; VStr "monthlyPI"; VStr "annualDebtService"]);
          ("properties", VObj [
            ("downPaymentPct", VObj [("type", VStr "number"); ("minimum", lit 0)]);
            ("rateAnnualPct", VObj [("type", VStr "number"); ("minimum", lit 0)]);
            ("termYears", VObj [("type", VStr "integer"); ("minimum", lit 1)]);
            ("loanAmount", VObj [("type", VArr [VStr "number"; VStr "null"]); ("minimum", lit 0)]);
            ("monthlyPI", VObj [("type", VArr [VStr "number"; VStr "null"]); ("minimum", lit 0)]);
            ("annualDebtService", VObj [("type", VArr [VStr "number"; VStr "null"]); ("minimum", lit 0)])])]);
        ("totals", VObj [
          ("type", VStr "object");
          ("additionalProperties", VBool false);
          ("required", VArr [
            VStr "egiAnnual"; VStr "opExAnnual"; VStr "noiAnnual"; VStr "capRatePct";
            VStr "dscr"; VStr "cashFlowAnnual"; VStr "cashOnCashRoiPct";
            VStr "onePercentRulePct"]);
          ("properties", VObj [
            ("egiAnnual", VObj [("type", VArr [VStr "number"; VStr "null"]); ("minimum", lit 0)]);
            ("opExAnnual", VObj [("type", VArr [VStr "number"; VStr "null"]); ("minimum", lit 0)]);
            ("noiAnnual", VObj [("type", VArr [VStr "number"; VStr "null"]); ("minimum", lit 0)]);
            ("capRatePct", VObj [("type", VArr [VStr "number"; VStr "null"]); ("minimum", lit 0)]);
            ("dscr", VObj [("type", VArr [VStr "number"; VStr "null"]); ("minimum", lit 0)]);
            ("cashFlowAnnual", VObj [
              ("type", VArr [VStr "number"; VStr "null"]);
              ("minimum", lit (-1000000000))]);
            ("cashOnCashRoiPct", VObj [("type", VArr [VStr "number"; VStr "null"])]);
            ("onePercentRulePct", VObj [("type", VArr [VStr "number"; VStr "null"]); ("minimum", lit 0)])])]);
        ("sensitivity", VObj [
          ("type", VStr "object");
          ("additionalProperties", VBool false);
          ("required", VArr [
            VStr "rentMinus10"; VStr "baseCase"; VStr "rentPlus10"; VStr "opExMinus10";
            VStr "opExPlus10"]);
          ("properties", VObj [
            ("rentMinus10", VObj [("$ref", VStr "#/$defs/sensitivityCase")]);
            ("baseCase", VObj [("$ref", VStr "#/$defs/sensitivityCase")]);
            ("rentPlus10", VObj [("$ref", VStr "#/$defs/sensitivityCase")]);
            ("opExMinus10", VObj [("$ref", VStr "#/$defs/sensitivityCase")]);
            ("opExPlus10", VObj [("$ref", VStr "#/$defs/sensitivityCase")])])]);
        ("negotiation", VObj [
          ("type", VStr "object");
          ("additionalProperties", VBool false);
          ("required", VArr [VStr "targetCapPct"; VStr "maxPurchasePriceAtTargetCap"; VStr "assumptions"]);
          ("properties", VObj [
            ("targetCapPct", VObj [("type", VStr "number"); ("minimum", lit 0)]);
            ("maxPurchasePriceAtTargetCap", VObj [("type", VArr [VStr "number"; VStr "null"]); ("minimum", lit 0)]);
            ("assumptions", VObj [
              ("type", VStr "object");
              ("additionalProperties", VBool false);
              ("required", VArr [VStr "closingCostPct"; VStr "pointsPct"]);
              ("properties", VObj [
                ("closingCostPct", VObj [("type", VStr "number"); ("minimum", lit 0)]);
                ("pointsPct", VObj [("type", VStr "number"); ("minimum", lit 0)])])])])]);
        ("glossary", VObj [
          ("type", VStr "object");
          ("additionalProperties", VBool false);
          ("required", VArr [VStr "EGI"; VStr "OpEx"; VStr "NOI"; VStr "Cap"; VStr "DSCR"; VStr "CoC"]);
          ("properties", VObj [
            ("EGI", VObj [("type", VStr "string")]);
            ("OpEx", VObj [("type", VStr "string")]);
            ("NOI", VObj [("type", VStr "string")]);
            ("Cap", VObj [("type", VStr "string")]);
            ("DSCR", VObj [("type", VStr "string")]);
            ("CoC", VObj [("type", VStr "string")])])]);
        ("$defs", VObj [
          ("unit", VObj [
            ("type", VStr "object");
            ("additionalProperties", VBool false);
            ("required", VArr [
              VStr "name"; VStr "beds"; VStr "baths"; VStr "sqft";
              VStr "modeledRentMonthly"; VStr "leaseTermMonths"; VStr "notes"]);
            ("properties", VObj [
              ("name", VObj [("type", VStr "string")]);
              ("beds", VObj [("type", VStr "number"); ("minimum", lit 0)]);
              ("baths", VObj [("type", VStr "number"); ("minimum", lit 0)]);
              ("sqft", VObj [("type", VArr [VStr "number"; VStr "null"]); ("minimum", lit 0)]);
              ("modeledRentMonthly", VObj [("type", VArr [VStr "number"; VStr "null"]); ("minimum", lit 0)]);
              ("leaseTermMonths", VObj [("type", VStr "integer"); ("minimum", lit 1)]);
              ("notes", VObj [("type", VStr "string")])])]);
          ("rentComp", VObj [
            ("type", VStr "object");
            ("additionalProperties", VBool false);
            ("required", VArr [
              VStr "address"; VStr "beds"; VStr "baths"; VStr "askingRent";
              VStr "distanceMiles"; VStr "conditionNote"]);
            ("properties", VObj [
              ("address", VObj [("type", VStr "string"); ("minLength", lit 3)]);
              ("beds", VObj [("type", VStr "number"); ("minimum", lit 0)]);
              ("baths", VObj [("type", VStr "number"); ("minimum", lit 0)]);
              ("askingRent", VObj [("type", VArr [VStr "number"; VStr "null"]); ("minimum", lit 0)]);
              ("distanceMiles", VObj [("type", VArr [VStr "number"; VStr "null"]); ("minimum", lit 0)]);
              ("conditionNote", VObj [("type", VStr "string")])])]);
          ("sensitivityCase", VObj [
            ("type", VStr "object");
            ("additionalProperties", VBool false);
            ("required", VArr [VStr "noiAnnual"; VStr "capRatePct"; VStr "dscr"; VStr "cashFlowAnnual"]);
            ("properties", VObj [
              ("noiAnnual", VObj [("type", VArr [VStr "number"; VStr "null"])]);
              ("capRatePct", VObj [("type", VArr [VStr "number"; VStr "null"])]);
              ("dscr", VObj [("type", VArr [VStr "number"; VStr "null"])]);
              ("cashFlowAnnual", VObj [("type", VArr [VStr "number"; VStr "null"])])])])])])])].


(** ** Objects by reference *)

Module Heap.

(** The page's objects live in a store and are handed around by reference:
    [withDefaults] returns a new object whose [units] and [comps] are the
    very arrays of its argument. *)
Definition loc : Type := positive.

Inductive hvalue : Type :=
  | HUndefined
  | HNull
  | HBool (b : bool)
  | HNum (n : number)
  | HStr (s : string)
  | HRef (l : loc).

Inductive cell : Type :=
  | CObj (props : list (string * hvalue))
  | CArr (elems : list hvalue).

Abbreviation heap := (gmap loc cell).

Definition hnullish (v : hvalue) : bool :=
  match v with
  | HUndefined | HNull => true
  | _ => false
  end.

Definition htruthy (v : hvalue) : bool :=
  match v with
  | HUndefined | HNull => false
  | HBool b => b
  | HNum (Fin q) => negb (is_zero q)
  | HNum NaN => false
  | HNum _ => true
  | HStr EmptyString => false
  | HStr _ => true
  | HRef _ => true
  end.

Fixpoint hlookup (k : string) (props : list (string * hvalue)) : option hvalue :=
  match props with
  | [] => None
  | (k', v) :: rest => if String.eqb k k' then Some v else hlookup k rest
  end.

(** [v?.k], read through the store. *)
Definition hopt (h : heap) (v : hvalue) (k : string) : hvalue :=
  match v with
  | HRef l =>
      match h !! l with
      | Some (CObj ps) => default HUndefined (hlookup k ps)
      | _ => HUndefined
      end
  | _ => HUndefined
  end.

Definition hcoalesce (a b : hvalue) : hvalue := if hnullish a then b else a.

Definition hor (a b : hvalue) : hvalue := if htruthy a then a else b.

Definition h_nonempty_array (h : heap) (v : hvalue) : bool :=
  match v with
  | HRef l =>
      match h !! l with
      | Some (CArr (_ :: _)) => true
      | _ => false
      end
  | _ => false
  end.

Definition hlit (q : Q) : hvalue := HNum (num q).

(** An object or array literal: a new cell at a location not in use. *)
Definition alloc (c : cell) (h : heap) : hvalue * heap :=
  let l := fresh (dom h) in (HRef l, <[l := c]> h).

(** [withDefaults(x)] on the store.  The only effects are the literals it
    evaluates: the synthetic unit list, the financing object, the empty
    [comps] list and [d] itself.  (Locations cannot be observed, so each
    cell is created once its contents are known.) *)
Definition withDefaults_h (x : hvalue) (h : heap) : outcome (hvalue * heap) :=
  if hnullish x then TypeError else
  let '(units, h1) :=
    if h_nonempty_array h (hopt h x "units") then (hopt h x "units", h)
    else
      let '(u, h0) := alloc (CObj [("name", HStr "Unit A"); ("rent", hlit 0)]) h in
      alloc (CArr [u]) h0 in
  let x_financing := hopt h x "financing" in
  let '(financing, h2) :=
    alloc (CObj [
      ("downPct", hcoalesce (hopt h x_financing "downPct") (hlit 0.25));
      ("rateAnnual", hcoalesce (hopt h x_financing "rateAnnual") (hlit 0.077));
      ("termMonths", hcoalesce (hopt h x_financing "termMonths") (hlit 360))]) h1 in
  let '(comps, h3) :=
    if hnullish (hopt h x "comps") then alloc (CArr []) h2
    else (hopt h x "comps", h2) in
  Ok (alloc (CObj [
    ("address", hor (hopt h x "address") (HStr ""));
    ("purchasePrice", hcoalesce (hopt h x "purchasePrice") (hlit 0));
    ("closingPct", hcoalesce (hopt h x "closingPct") (hlit 0.03));
    ("pointsOnLoanPctOfPrice", hcoalesce (hopt h x "pointsOnLoanPctOfPrice") (hlit 0.0075));
    ("vacancyRate", hcoalesce (hopt h x "vacancyRate") (hlit 0.05));
    ("maintPctOfGrossRent", hcoalesce (hopt h x "maintPctOfGrossRent") (hlit 0.08));
    ("mgmtPctOfEGI", hcoalesce (hopt h x "mgmtPctOfEGI") (hlit 0.08));
    ("insuranceAnnual", hcoalesce (hopt h x "insuranceAnnual") (hlit 0));
    ("taxesAnnual", hcoalesce (hopt h x "taxesAnnual") (hlit 0));
    ("otherAnnual", hcoalesce (hopt h x "otherAnnual") (hlit 0));
    ("hoaAnnual", hcoalesce (hopt h x "hoaAnnual") (hlit 0));
    ("utilsAnnualLL", hcoalesce (hopt h x "utilsAnnualLL") (hlit 0));
    ("units", units);
    ("financing", financing);
    ("comps", comps)]) h3).

(** What is readable from [v] within [depth] property reads.  Below that
    depth an object or array is only known to be one (it shows as empty); a
    reference that leads nowhere, which a closed store has none of, shows as
    an empty object. *)
Fixpoint snapshot (depth : nat) (h : heap) (v : hvalue) : value :=
  match v with
  | HUndefined => VUndefined
  | HNull => VNull
  | HBool b => VBool b
  | HNum n => VNum n
  | HStr s => VStr s
  | HRef l =>
      match h !! l, depth with
      | Some (CObj ps), S k => VObj (List.map (fun p => (fst p, snapshot k h (snd p))) ps)
      | Some (CArr es), S k => VArr (List.map (snapshot k h) es)
      | Some (CArr _), O => VArr []
      | _, _ => VObj []
      end
  end.

(** [Report] on the store: [d] is built by [withDefaults], and the constants
    are computed from what the source reads of it -- the fields of [d], the
    elements of [d.units] with their [rent], the fields of [d.financing] --
    none of which is more than three reads away from [d].  Nothing is
    written. *)
Definition Report_h (x : hvalue) (h : heap) : outcome (Metrics * heap) :=
  let* dh := withDefaults_h x h in
  let* m := metrics_of (snapshot 3 (snd dh) (fst dh)) in
  Ok (m, snd dh).

(** References that lead somewhere, and a store all of whose references do. *)
Definition valid (h : heap) (v : hvalue) : Prop :=
  match v with
  | HRef l => is_Some (h !! l)
  | _ => True
  end.

Definition cell_values (c : cell) : list hvalue :=
  match c with
  | CObj ps => List.map snd ps
  | CArr es => es
  end.

Definition closed (h : heap) : Prop :=
  forall l c, h !! l = Some c -> Forall (valid h) (cell_values c).

End Heap.

(** ** Worked inputs *)



(** P4 of the specification; its loan is the 375000 of P3. *)
Definition P4 : value :=
  VObj [("units", VArr [unit_obj (VStr "Unit A") (lit 2000)]);
        ("purchasePrice", lit 500000)].

Definition unit_A : Spec.Unit :=
  {| Spec.name := Some "Unit A"; Spec.monthlyRent := 2000 |}.

Definition typed_P4 : Spec.InvestmentInputs :=
  Spec.inputs 500000 [unit_A] 0 0 0.05 0.25 0.077 360.




Definition typed_zero_rate : Spec.InvestmentInputs :=
  Spec.inputs 500000 [unit_A] 0 0 0.05 0.25 0 360.

(** The P4 purchase paid in cash: 100 percent down. *)
Definition all_cash : value :=
  VObj [("units", VArr [unit_obj (VStr "Unit A") (lit 2000)]);
        ("purchasePrice", lit 500000);
        ("financing", VObj [("downPct", lit 1)])].

Definition typed_all_cash : Spec.InvestmentInputs :=
  Spec.inputs 500000 [unit_A] 0 0 0.05 1 0.077 360.

(** An all-cash purchase with no rent and no expenses. *)
Definition all_cash_vacant : value :=
  VObj [("purchasePrice", lit 500000);
        ("financing", VObj [("downPct", lit 1)])].

Definition typed_all_cash_vacant : Spec.InvestmentInputs :=
  Spec.inputs 500000 [] 0 0 0.05 1 0.077 360.

(** A rented property with no purchase price. *)
Definition no_price : value :=
  VObj [("units", VArr [unit_obj (VStr "Unit A") (lit 2000)])].

Definition typed_no_price : Spec.InvestmentInputs :=
  Spec.inputs 0 [unit_A] 0 0 0.05 0.25 0.077 360.

(** An upstream report with whole-number percentages. *)
Definition upstream_report : value :=
  VObj [("subject", VObj [("address", VStr "111 Cultural Park Blvd S")]);
        ("purchase", VObj [("purchasePrice", lit 500000); ("closingCostPct", lit 0.03);
                           ("pointsPct", lit 0.0075)]);
        ("units", VArr [VObj [("name", VStr "Unit A"); ("modeledRentMonthly", lit 2000)]]);
        ("rentComps", VArr []);
        ("operatingAssumptions",
           VObj [("vacancyPct", lit 5); ("maintenancePctOfGrossRent", lit 8);
                 ("managementPctOfEGI", VNull)]);
        ("financing", VObj [("downPaymentPct", lit 25); ("rateAnnualPct", lit 7.7);
                            ("termYears", lit 30)])].

(** A store holding the P4 report, on a twelve-month loan. *)
Definition P4_store : gmap Heap.loc Heap.cell :=
  {[ 1%positive := Heap.CObj [("units", Heap.HRef 2%positive);
                              ("purchasePrice", Heap.hlit 500000);
                              ("financing", Heap.HRef 4%positive)];
     2%positive := Heap.CArr [Heap.HRef 3%positive];
     3%positive := Heap.CObj [("name", Heap.HStr "Unit A"); ("rent", Heap.hlit 2000)];
     4%positive := Heap.CObj [("termMonths", Heap.hlit 12)] ]}.

Definition P4_ref : Heap.hvalue := Heap.HRef 1%positive.

(** ** Definitions the statements use *)

(** The JSON Schema carried by [PROPERTY_REPORT_SCHEMA]. *)
Definition schema_of_part_001 : value := opt PROPERTY_REPORT_SCHEMA "schema".

(** [|x - c| <= tol] for a finite [x]. *)
Definition within (x : number) (c tol : Q) : bool :=
  match x with
  | Fin q => Qle_bool (Qabs (q - c)) tol
  | _ => false
  end.

Definition between (lo hi p : Q) : bool := Qle_bool lo p && Qle_bool p hi.

Definition units_or_synthetic (u : value) : value :=
  if nonempty_array u then u else synthetic_units.

(** The object [withDefaults] builds when only [units] and [purchasePrice]
    may be present. *)
Definition defaults_with (units purchasePrice : value) : value :=
  VObj [
    ("address", VStr "");
    ("purchasePrice", coalesce purchasePrice (lit 0));
    ("closingPct", lit 0.03);
    ("pointsOnLoanPctOfPrice", lit 0.0075);
    ("vacancyRate", lit 0.05);
    ("maintPctOfGrossRent", lit 0.08);
    ("mgmtPctOfEGI", lit 0.08);
    ("insuranceAnnual", lit 0);
    ("taxesAnnual", lit 0);
    ("otherAnnual", lit 0);
    ("hoaAnnual", lit 0);
    ("utilsAnnualLL", lit 0);
    ("units", units_or_synthetic units);
    ("financing", VObj [("downPct", lit 0.25); ("rateAnnual", lit 0.077);
                        ("termMonths", lit 360)]);
    ("comps", VArr [])].

(** The fields [withDefaults] fills. *)
Definition defaulted_fields : list string :=
  ["purchasePrice"; "closingPct"; "pointsOnLoanPctOfPrice"; "vacancyRate";
   "maintPctOfGrossRent"; "mgmtPctOfEGI"; "insuranceAnnual"; "taxesAnnual";
   "otherAnnual"; "hoaAnnual"; "utilsAnnualLL"; "units"; "financing"; "comps"].

Definition financing_fields : list string := ["downPct"; "rateAnnual"; "termMonths"].

(** The elements of an array value are all other than [null] and
    [undefined]. *)
Definition elements_defined (v : value) : bool :=
  match v with
  | VArr l => forallb (fun u => negb (nullish u)) l
  | _ => true
  end.

(** A report [mapFromSchema] can walk: not nullish itself, with no nullish
    entry in [units] or [rentComps]. *)
Definition mappable (x : value) : bool :=
  negb (nullish x)
  && elements_defined (opt x "units")
  && elements_defined (opt x "rentComps").

(** A whole-number percentage as a fraction, or the default. *)
Definition normalized_percent (raw : value) (default : Q) : value :=
  match raw with
  | VNum p => VNum (Num.div p (Fin 100))
  | _ => VNum (num default)
  end.

(** A term in years as months, or the default number of months. *)
Definition normalized_term (raw : value) (default : Q) : value :=
  match raw with
  | VNum y => VNum (Num.mul (Fin 12) y)
  | _ => VNum (num default)
  end.

(** The first component of a successful run. *)
Definition result {A B : Type} (o : outcome (A * B)) : outcome A :=
  let* p := o in Ok (fst p).


(** ** An upstream report with typed fields *)

(** The fields of a generated report that [mapFromSchema] reads, typed as
    [PROPERTY_REPORT_JSON_SCHEMA] types them: numbers and an integral
    [termYears].  Any of them may be [null], which [mapFromSchema] treats
    like an absent field. *)
Module Upstream.

Record Unit : Type := { name : string; modeledRentMonthly : option Q }.

Record Document : Type := {
  purchasePrice : option Q;
  closingCostPct : option Q;
  pointsPct : option Q;
  vacancyPct : option Q;
  maintenancePctOfGrossRent : option Q;
  managementPctOfEGI : option Q;
  utilitiesLandlordPaidAnnual : option Q;
  otherOpExAnnual : option Q;
  dp3Annual : option Q;
  taxesAnnual : option Q;
  hoaAnnual : option Q;
  units : list Unit;
  downPaymentPct : option Q;
  rateAnnualPct : option Q;
  termYears : option Z
}.

(** A nullable number. *)
Definition nullable (o : option Q) : value :=
  match o with
  | Some q => lit q
  | None => VNull
  end.

Definition unit_to_js (u : Unit) : value :=
  VObj [("name", VStr (name u)); ("modeledRentMonthly", nullable (modeledRentMonthly u))].

(** The report as the JSON document the page receives; [subject] and
    [rentComps] are carried as they come. *)
Definition to_js (subject rentComps : value) (x : Document) : value :=
  VObj [
    ("subject", subject);
    ("purchase", VObj [
       ("purchasePrice", nullable (purchasePrice x));
       ("closingCostPct", nullable (closingCostPct x));
       ("pointsPct", nullable (pointsPct x))]);
    ("propertySnapshot", VObj [
       ("hoa", VObj [("annual", nullable (hoaAnnual x))]);
       ("taxes", VObj [("annual", nullable (taxesAnnual x))]);
       ("insurance", VObj [("dp3Annual", nullable (dp3Annual x))])]);
    ("units", VArr (List.map unit_to_js (units x)));
    ("rentComps", rentComps);
    ("operatingAssumptions", VObj [
       ("vacancyPct", nullable (vacancyPct x));
       ("maintenancePctOfGrossRent", nullable (maintenancePctOfGrossRent x));
       ("managementPctOfEGI", nullable (managementPctOfEGI x));
       ("utilitiesLandlordPaidAnnual", nullable (utilitiesLandlordPaidAnnual x));
       ("otherOpExAnnual", nullable (otherOpExAnnual x))]);
    ("financing", VObj [
       ("downPaymentPct", nullable (downPaymentPct x));
       ("rateAnnualPct", nullable (rateAnnualPct x));
       ("termYears", nullable (option_map inject_Z (termYears x)))])].

(** A whole-number percentage as a fraction, or the fraction used in its
    absence. *)
Definition percent (o : option Q) (def : Q) : Q :=
  match o with
  | Some p => p / 100
  | None => def
  end.

Definition months (o : option Z) : Z :=
  match o with
  | Some y => y * 12
  | None => 30 * 12
  end.

(** The calculator's inputs [mapFromSchema] makes of the report: the three
    operating percentages and the two financing percentages divided by 100,
    the term in months, the purchase percentages taken as they are, and
    [mapFromSchema]'s own value for each field that is [null]. *)
Definition inputs (x : Document) : Spec.InvestmentInputs :=
  {| Spec.purchasePrice := default 0 (purchasePrice x);
     Spec.closingCostPct := default 0.02 (closingCostPct x);
     Spec.pointsPct := default 0 (pointsPct x);
     Spec.vacancyRate := percent (vacancyPct x) 0.05;
     Spec.maintenancePctOfGrossRent := percent (maintenancePctOfGrossRent x) 0.08;
     Spec.managementPctOfEGI := percent (managementPctOfEGI x) 0.08;
     Spec.taxesAnnual := default 0 (taxesAnnual x);
     Spec.insuranceAnnual := default 0 (dp3Annual x);
     Spec.hoaAnnual := default 0 (hoaAnnual x);
     Spec.utilitiesLandlordAnnual := default 0 (utilitiesLandlordPaidAnnual x);
     Spec.otherOpExAnnual := default 0 (otherOpExAnnual x);
     Spec.units :=
       List.map (fun u => {| Spec.name := Some (name u);
                             Spec.monthlyRent := default 0 (modeledRentMonthly u) |})
                (units x);
     Spec.downPaymentPct := percent (downPaymentPct x) 0.25;
     Spec.annualRatePct := percent (rateAnnualPct x) 0.077;
     Spec.termMonths := months (termYears x) |}.

End Upstream.

(** The fields of the defaulted object that [Report] reads. *)
Definition calculator_fields : list string :=
  ["units"; "vacancyRate"; "maintPctOfGrossRent"; "mgmtPctOfEGI"; "taxesAnnual";
   "insuranceAnnual"; "hoaAnnual"; "utilsAnnualLL"; "otherAnnual"; "purchasePrice";
   "closingPct"; "financing"; "pointsOnLoanPctOfPrice"].

(** A worked upstream report: a duplex at 7.25% over 30 years, one rent
    not modelled, no closing percentage and no insurance quote. *)
Definition typed_upstream : Upstream.Document :=
  {| Upstream.purchasePrice := Some 400000;
     Upstream.closingCostPct := None;
     Upstream.pointsPct := Some 0.01;
     Upstream.vacancyPct := Some 5;
     Upstream.maintenancePctOfGrossRent := Some 8;
     Upstream.managementPctOfEGI := None;
     Upstream.utilitiesLandlordPaidAnnual := Some 0;
     Upstream.otherOpExAnnual := Some 600;
     Upstream.dp3Annual := None;
     Upstream.taxesAnnual := Some 5200;
     Upstream.hoaAnnual := Some 0;
     Upstream.units := [ {| Upstream.name := "A"; Upstream.modeledRentMonthly := Some 1900 |};
                         {| Upstream.name := "B"; Upstream.modeledRentMonthly := None |} ];
     Upstream.downPaymentPct := Some 25;
     Upstream.rateAnnualPct := Some 7.25;
     Upstream.termYears := Some 30%Z |}.

(** The P4 purchase on a loan of zero months. *)
Definition typed_zero_term : Spec.InvestmentInputs :=
  Spec.inputs 500000 [unit_A] 0 0 0.05 0.25 0.077 0.

(** ** The serverless function (src/api/generate.js and its earlier versions) *)

Module Api.

(** What the handler uses of the language runtime and leaves to it. *)
Record Runtime : Type := {
  (** [s.trim()] *)
  trim : string -> string;
  (** [String(v)], and a template literal's hole, on a value that is not a
      string *)
  ToString : value -> string;
  (** [JSON.parse(s)]; [None] when it throws *)
  JSON_parse : string -> option value;
  (** [JSON.stringify(v)]; [None] when it throws or gives [undefined] *)
  JSON_stringify : value -> option string;
  (** [s.length] *)
  str_length : string -> Z;
  (** [s.slice(0, n)] *)
  slice_to : string -> Z -> string;
  (** [String(e?.message || e)] of the [TypeError] a property read on
      [null] or [undefined] throws *)
  TypeError_text : string
}.

(** [req]: its method, [req.body], and the text the request stream gives
    when it is read to the end ([None] when reading throws). *)
Record Request : Type := {
  method : string;
  body : value;
  stream : option string
}.

(** [process.env]: a variable is a string or is not set. *)
Record Env : Type := {
  OPENAI_API_KEY : option string;
  OPENAI_PROMPT_ID : option string;
  OPENAI_MODEL : option string
}.

Definition env_value (o : option string) : value :=
  match o with
  | Some s => VStr s
  | None => VUndefined
  end.

(** What is sent through [res]: the headers set, the status, and the JSON
    body ([None] after [end()]). *)
Record Response : Type := {
  headers : list (string * string);
  status : Z;
  json : option value
}.

(** [await fetch(...)] then [await r.json()]: either of them rejects, with
    [String(e?.message || e)] the given text, or there is an answer with
    [r.ok], [r.status] and its parsed body. *)
Inductive Upstream : Type :=
  | Rejected (text : string)
  | Answered (ok : bool) (status : Z) (data : value).

(** A run of the handler: it answers at once, throws, or calls [fetch] and
    answers from what comes back.  [payload] is the object handed to
    [JSON.stringify] for the request body. *)
Inductive Run : Type :=
  | Reply (r : Response)
  | Throw
  | Fetch (url : string) (request_headers : list (string * string)) (payload : value)
          (k : Upstream -> outcome Response).

(** The three [res.setHeader] calls every version starts with. *)
Definition cors : list (string * string) :=
  [("Access-Control-Allow-Origin", "*");
   ("Access-Control-Allow-Methods", "POST, OPTIONS");
   ("Access-Control-Allow-Headers", "Content-Type")].

(** [res.status(s).end()] and [res.status(s).json(v)] *)
Definition end_ (s : Z) : Response := {| headers := cors; status := s; json := None |}.
Definition send (s : Z) (v : value) : Response :=
  {| headers := cors; status := s; json := Some v |}.

Definition error (msg : string) : value := VObj [("error", VStr msg)].

(** A string as a condition. *)
Definition nonempty (s : string) : bool := negb (String.eqb s "").

Definition is_string (v : value) : bool :=
  match v with
  | VStr _ => true
  | _ => false
  end.

(** [v === "s"] *)
Definition equals (v : value) (s : string) : bool :=
  match v with
  | VStr t => String.eqb t s
  | _ => false
  end.

(** [arr.flatMap(f)] for a callback that returns an array, and
    [arr.find(p)], which stops at the first hit and gives [undefined]
    when there is none. *)
Fixpoint Array_flatMap (f : value -> outcome (list value)) (l : list value)
  : outcome (list value) :=
  match l with
  | [] => Ok []
  | m :: rest =>
      let* xs := f m in
      let* ys := Array_flatMap f rest in
      Ok (xs ++ ys)%list
  end.

Fixpoint Array_find (p : value -> outcome bool) (l : list value) : outcome value :=
  match l with
  | [] => Ok VUndefined
  | c :: rest =>
      let* hit := p c in
      if hit then Ok c else Array_find p rest
  end.

Section Handlers.

Variable rt : Runtime.

(** [String(v)]; a string is its own conversion. *)
Definition String_ (v : value) : string :=
  match v with
  | VStr s => s
  | _ => ToString rt v
  end.

(** [try { body = JSON.parse(s); } catch { body = {}; }] *)
Definition parse_or_empty (s : string) : value := default (VObj []) (JSON_parse rt s).

(** The body as the later versions read it: the stream when [req.body] is
    falsy, the parse of [req.body] when it is a string, [req.body]
    otherwise. *)
Definition read_body (req : Request) : value :=
  if negb (truthy (body req)) then
    match stream req with
    | Some raw => if nonempty raw then parse_or_empty raw else VObj []
    | None => VObj []
    end
  else
    match body req with
    | VStr s => parse_or_empty s
    | b => b
    end.

(** [safeParseJSON(s)]: [try { return s ? JSON.parse(s) : null; } catch { return null; }] *)
Definition safeParseJSON (s : value) : value :=
  if truthy s then default VNull (JSON_parse rt (String_ s)) else VNull.

Definition notice : value := VObj [("notice", VStr "unable to serialize raw response")].

(** [redactLarge(obj)] *)
Definition redactLarge (obj : value) : value :=
  match JSON_stringify rt obj with
  | Some str =>
      if (40000 <? str_length rt str)%Z
      then default notice (JSON_parse rt (slice_to rt str 40000))
      else obj
  | None => notice
  end.

(** [m => Array.isArray(m.content) ? m.content : []] *)
Definition content_of (m : value) : outcome (list value) :=
  let* content := get m "content" in
  Ok (match content with
      | VArr cs => cs
      | _ => []
      end).

(** [c => (c.type === "output_text" || c.type === "text") && typeof c.text === "string"] *)
Definition is_text_item (c : value) : outcome bool :=
  let* type := get c "type" in
  if equals type "output_text" || equals type "text"
  then let* text := get c "text" in Ok (is_string text)
  else Ok false.

(** The parsing of the answer in the later versions, from
    [let parsed = data.output_parsed] to the test of [parsed]. *)
Definition extract (data : value) : outcome value :=
  let* output_parsed := get data "output_parsed" in
  let* parsed1 :=
    if negb (truthy output_parsed) && is_string (opt data "output_text")
    then Ok (safeParseJSON (opt data "output_text"))
    else Ok output_parsed in
  if negb (truthy parsed1) then
    match opt data "output" with
    | VArr ms =>
        let* cs := Array_flatMap content_of ms in
        let* firstText := Array_find is_text_item cs in
        if truthy firstText
        then let* text := get firstText "text" in Ok (safeParseJSON text)
        else Ok parsed1
    | _ => Ok parsed1
    end
  else Ok parsed1.

(** The [try] block after the call, and its [catch]. *)
Definition respond (u : Upstream) : outcome Response :=
  match u with
  | Rejected text => Ok (send 500 (error text))
  | Answered ok status data =>
      if negb ok then Ok (send status data) else
      match extract data with
      | Ok parsed =>
          if negb (truthy parsed)
          then Ok (send 500 (VObj [("error", VStr "No JSON returned");
                                   ("raw", redactLarge data)]))
          else Ok (send 200 parsed)
      | TypeError => Ok (send 500 (error (TypeError_text rt)))
      | Unmodelled => Unmodelled
      end
  end.

Definition url : string := "https://api.openai.com/v1/responses".

Definition request_headers_for (key : value) : list (string * string) :=
  [("Content-Type", "application/json"); ("Authorization", "Bearer " ++ String_ key)].

(** [purchasePrice ? ` — $${purchasePrice}` : ""] *)
Definition priceStr (purchasePrice : value) : string :=
  if truthy purchasePrice then " — $" ++ String_ purchasePrice else "".

(** [overrides ? ` ${String(overrides).trim()}` : ""] *)
Definition extra (overrides : value) : string :=
  if truthy overrides then " " ++ trim rt (String_ overrides) else "".

End Handlers.

(** src/api/generate.js *)
Module Generate.


Definition userInput (rt : Runtime) (address purchasePrice overrides : value) : string :=
  trim rt (String_ rt address) ++ priceStr rt purchasePrice ++ extra rt overrides.

Definition payload (prompt_id : value) (input : string) : value :=
  VObj [("prompt", VObj [("id", prompt_id); ("version", VStr "1")]);
        ("input", VStr input);
        ("response_format", VObj [("type", VStr "json_object")])].

Definition handler (rt : Runtime) (env : Env) (req : Request) : Run :=
  if String.eqb (method req) "OPTIONS" then Reply (end_ 200) else
  if negb (String.eqb (method req) "POST") then Reply (send 405 (error "Only POST")) else
  let key := env_value (OPENAI_API_KEY env) in
  let prompt_id := env_value (OPENAI_PROMPT_ID env) in
  if negb (truthy key) then Reply (send 500 (error "Missing OPENAI_API_KEY")) else
  if negb (truthy prompt_id) then Reply (send 500 (error "Missing OPENAI_PROMPT_ID")) else
  let b := or (read_body rt req) (VObj []) in
  let address := opt b "address" in
  let purchasePrice := opt b "purchasePrice" in
  let overrides := opt b "overrides" in
  if negb (truthy address) || negb (is_string address)
     || negb (nonempty (trim rt (String_ rt address)))
  then Reply (send 400 (error "address is required")) else
  Fetch url (request_headers_for rt key)
        (payload prompt_id (userInput rt address purchasePrice overrides))
        (respond rt).

End Generate.

(** src/unnamed/part_000 *)
Module Part000.

Definition userInput (rt : Runtime) (address purchasePrice overrides : value) : string :=
  trim rt (String_ rt address) ++ priceStr rt purchasePrice ++ extra rt overrides.

Definition payload (model prompt_id : value) (input : string) : value :=
  VObj [("model", model);
        ("prompt", VObj [("id", prompt_id)]);
        ("input", VStr input);
        ("text", VObj [("format", VObj [
           ("type", VStr "json_schema");
           ("name", VStr "property_investment_report_v1");
           ("strict", VBool false);
           ("schema", PROPERTY_REPORT_JSON_SCHEMA)])])].

Definition handler (rt : Runtime) (env : Env) (req : Request) : Run :=
  if String.eqb (method req) "OPTIONS" then Reply (end_ 200) else
  if negb (String.eqb (method req) "POST") then Reply (send 405 (error "Only POST")) else
  let key := env_value (OPENAI_API_KEY env) in
  let prompt_id := env_value (OPENAI_PROMPT_ID env) in
  let MODEL := or (env_value (OPENAI_MODEL env)) (VStr "gpt-5-mini-2025-08-07") in
  if negb (truthy key) then Reply (send 500 (error "Missing OPENAI_API_KEY")) else
  if negb (truthy prompt_id) then Reply (send 500 (error "Missing OPENAI_PROMPT_ID")) else
  let b := or (read_body rt req) (VObj []) in
  let address := opt b "address" in
  let purchasePrice := opt b "purchasePrice" in
  let overrides := opt b "overrides" in
  if negb (truthy address) || negb (nonempty (trim rt (String_ rt address)))
  then Reply (send 400 (error "address is required")) else
  Fetch url (request_headers_for rt key)
        (payload MODEL prompt_id (userInput rt address purchasePrice overrides))
        (respond rt).

End Part000.

(** src/unnamed/part_001, the first of its two versions (lines 2 to 48) *)
Module Part001.

(** [body = JSON.parse(Buffer.concat(chunks).toString() || "{}")] in a
    [try] whose [catch] sets [{}]; [JSON.parse("{}")] is [{}].  A [req.body]
    that is a string is not parsed. *)
Definition read_body (rt : Runtime) (req : Request) : value :=
  if negb (truthy (body req)) then
    match stream req with
    | Some raw => if nonempty raw then parse_or_empty rt raw else VObj []
    | None => VObj []
    end
  else body req.

Definition userInput (rt : Runtime) (address purchasePrice overrides : value) : string :=
  String_ rt address ++ priceStr rt purchasePrice
  ++ (if truthy overrides then " " ++ String_ rt overrides else "").

Definition payload (prompt_id : value) (input : string) : value :=
  VObj [("prompt", VObj [("id", prompt_id); ("version", VStr "1")]);
        ("input", VStr input)].

(** [data.output_parsed ?? (typeof data.output_text === "string" ?
    safeParseJSON(data.output_text) : null)] *)
Definition extract (rt : Runtime) (data : value) : outcome value :=
  let* output_parsed := get data "output_parsed" in
  if nullish output_parsed
  then Ok (if is_string (opt data "output_text")
           then safeParseJSON rt (opt data "output_text")
           else VNull)
  else Ok output_parsed.

Definition respond (rt : Runtime) (u : Upstream) : outcome Response :=
  match u with
  | Rejected text => Ok (send 500 (error text))
  | Answered ok status data =>
      if negb ok then Ok (send status data) else
      match extract rt data with
      | Ok parsed =>
          if negb (truthy parsed)
          then Ok (send 500 (VObj [("error", VStr "No JSON returned"); ("raw", data)]))
          else Ok (send 200 parsed)
      | TypeError => Ok (send 500 (error (TypeError_text rt)))
      | Unmodelled => Unmodelled
      end
  end.

(** The destructuring [const { address, purchasePrice, overrides } = body]
    throws on [null] and [undefined], outside any [try]. *)
Definition handler (rt : Runtime) (env : Env) (req : Request) : Run :=
  if String.eqb (method req) "OPTIONS" then Reply (end_ 200) else
  if negb (String.eqb (method req) "POST") then Reply (send 405 (error "Only POST")) else
  let b := read_body rt req in
  if nullish b then Throw else
  let address := opt b "address" in
  let purchasePrice := opt b "purchasePrice" in
  let overrides := opt b "overrides" in
  if negb (truthy address) then Reply (send 400 (error "address is required")) else
  Fetch url (request_headers_for rt (env_value (OPENAI_API_KEY env)))
        (payload (env_value (OPENAI_PROMPT_ID env))
                 (userInput rt address purchasePrice overrides))
        (respond rt).

End Part001.

(** src/unnamed/part_001, the second version (lines 58 to 143): the
    validation, the body and the answer are read as in part_000. *)
Module Part001b.

Definition payload (prompt_id : value) (input : string) : value :=
  VObj [("model", VStr "gpt-5-thinking");
        ("prompt", VObj [("id", prompt_id); ("version", VStr "1");
                         ("variables", VObj [("input", VStr input)])]);
        ("text", VObj [("format", VObj [
           ("type", VStr "json_schema");
           ("json_schema", PROPERTY_REPORT_SCHEMA)])])].

Definition handler (rt : Runtime) (env : Env) (req : Request) : Run :=
  if String.eqb (method req) "OPTIONS" then Reply (end_ 200) else
  if negb (String.eqb (method req) "POST") then Reply (send 405 (error "Only POST")) else
  let key := env_value (OPENAI_API_KEY env) in
  let prompt_id := env_value (OPENAI_PROMPT_ID env) in
  if negb (truthy key) then Reply (send 500 (error "Missing OPENAI_API_KEY")) else
  if negb (truthy prompt_id) then Reply (send 500 (error "Missing OPENAI_PROMPT_ID")) else
  let b := or (read_body rt req) (VObj []) in
  let address := opt b "address" in
  let purchasePrice := opt b "purchasePrice" in
  let overrides := opt b "overrides" in
  if negb (truthy address) || negb (nonempty (trim rt (String_ rt address)))
  then Reply (send 400 (error "address is required")) else
  Fetch url (request_headers_for rt key)
        (payload prompt_id (Part000.userInput rt address purchasePrice overrides))
        (respond rt).

End Part001b.

End Api.

(** A runtime for worked requests: strings without surrounding blanks, so
    [trim] leaves them alone; no text parses; nothing is serialized. *)
Definition plain_runtime : Api.Runtime :=
  {| Api.trim := fun s => s;
     Api.ToString := fun _ => "";
     Api.JSON_parse := fun _ => None;
     Api.JSON_stringify := fun _ => None;
     Api.str_length := fun _ => 0%Z;
     Api.slice_to := fun s _ => s;
     Api.TypeError_text := "Cannot read properties of null" |}.

Definition configured : Api.Env :=
  {| Api.OPENAI_API_KEY := Some "sk-test";
     Api.OPENAI_PROMPT_ID := Some "pmpt_test";
     Api.OPENAI_MODEL := None |}.

(** A POST whose body the platform has parsed. *)
Definition post (b : value) : Api.Request :=
  {| Api.method := "POST"; Api.body := b; Api.stream := None |}.



(** * Properties *)

(** ** Arithmetic on numbers *)

Lemma num_eq (p q : Q) : p == q -> num p = num q.
Proof. intros H. unfold num. f_equal. now apply Qred_complete. Qed.

Lemma is_zero_spec (q : Q) : is_zero q = true <-> q == 0.
Proof.
  unfold is_zero, Qeq. destruct q as [a b]. simpl.
  rewrite Z.eqb_eq. lia.
Qed.

Lemma is_zero_false (q : Q) : is_zero q = false <-> ~ q == 0.
Proof.
  rewrite <- is_zero_spec. destruct (is_zero q); split; congruence.
Qed.

Lemma is_zero_Qred (q : Q) : is_zero (Qred q) = is_zero q.
Proof.
  destruct (is_zero q) eqn:E.
  - apply is_zero_spec. rewrite Qred_correct. now apply is_zero_spec.
  - apply is_zero_false. rewrite Qred_correct. now apply is_zero_false.
Qed.

Ltac qnorm := apply num_eq; rewrite ?Qred_correct.

Lemma mul_comm (x y : number) : Num.mul x y = Num.mul y x.
Proof.
  destruct x as [a| | |], y as [b| | |]; simpl; try reflexivity.
  all: try (qnorm; ring).
  all: f_equal; apply Z.mul_comm.
Qed.

Lemma sub_fin (a b : Q) : Num.sub (Fin a) (Fin b) = num (a - b).
Proof. unfold Num.sub, Num.neg, Num.add. qnorm. ring. Qed.

Lemma div_fin (a b : Q) : ~ b == 0 -> Num.div (Fin a) (Fin b) = num (a / b).
Proof. intros H. simpl. apply is_zero_false in H. now rewrite H. Qed.

Lemma div_by_zero (x : number) :
  Num.div x (Fin 0) = NaN \/ Num.div x (Fin 0) = PInf \/ Num.div x (Fin 0) = NInf.
Proof.
  destruct x as [a| | |]; simpl; auto.
  destruct (qsign a); simpl; auto.
Qed.

(** Integer exponents: the power is exact. *)
Lemma pow_integer (b : Q) (t : Z) :
  Num.pow (Fin b) (Fin (inject_Z t)) =
  Some (if (t =? 0)%Z then Fin 1
        else if is_zero b then (if (0 <? t)%Z then Fin 0 else PInf)
        else num (Qpower b t)).
Proof.
  unfold Num.pow, is_zero, is_integral, qsign.
  rewrite inject_Z_Qred. simpl.
  destruct (t =? 0)%Z; [reflexivity|].
  destruct (Qnum b =? 0)%Z; [|reflexivity].
  do 2 f_equal. destruct t; reflexivity.
Qed.

Lemma discount_lt_1 (b : Q) (t : Z) : 1 < b -> (1 <= t)%Z -> Qpower b (- t) < 1.
Proof.
  intros Hb Ht. rewrite Qpower_opp.
  assert (H1 : 1 < Qpower b t) by (apply Qpower_1_lt; [assumption | lia]).
  assert (H0 : 0 < Qpower b t) by (apply Qlt_trans with (y := 1); [reflexivity | exact H1]).
  apply Qlt_shift_inv_r; [exact H0|].
  now rewrite Qmult_1_l.
Qed.

Lemma within_num (q c tol : Q) : within (num q) c tol = within (Fin q) c tol.
Proof.
  unfold within, num.
  destruct (Qle_bool (Qabs (q - c)) tol) eqn:E.
  - apply Qle_bool_iff. apply Qle_bool_iff in E. now rewrite Qred_correct.
  - destruct (Qle_bool (Qabs (Qred q - c)) tol) eqn:E'; [|reflexivity].
    apply Qle_bool_iff in E'. rewrite Qred_correct in E'.
    apply Qle_bool_iff in E'. congruence.
Qed.

(** ** The calculator on typed inputs *)

Lemma or_rent (q : Q) :
  exists q', or (lit q) (lit 0) = VNum (Fin q') /\ q' == q.
Proof.
  unfold or, lit, num, truthy. rewrite is_zero_Qred.
  destruct (is_zero q) eqn:E; simpl.
  - exists (Qred 0). split; [reflexivity|].
    apply is_zero_spec in E. now rewrite Qred_correct, E.
  - exists (Qred q). split; [reflexivity | apply Qred_correct].
Qed.

Lemma rent_of_unit (u : Spec.Unit) :
  get (Spec.unit_to_js u) "rent" = Ok (lit (Spec.monthlyRent u)).
Proof. unfold Spec.unit_to_js. destruct (Spec.name u); reflexivity. Qed.

Lemma sum_rents_to_js (us : list Spec.Unit) (s : Q) :
  exists q,
    Array_reduce
      (fun s u => let* rent := get u "rent" in plus (VNum s) (or rent (lit 0)))
      (List.map Spec.unit_to_js us) (Fin s) = Ok (Fin q)
    /\ q == s + fold_right (fun u acc => Spec.monthlyRent u + acc) 0 us.
Proof.
  revert s. induction us as [|u us IH]; intros s.
  - exists s. split; [reflexivity | simpl; ring].
  - cbn [List.map Array_reduce fold_right]. rewrite rent_of_unit. cbn [bind].
    destruct (or_rent (Spec.monthlyRent u)) as (q' & -> & Hq').
    destruct (IH (Qred (s + q'))) as (q & Hrun & Hq).
    exists q. split; [exact Hrun|].
    rewrite Hq, Qred_correct, Hq'. ring.
Qed.

Lemma sum_rents_units (us : list Spec.Unit) :
  exists q,
    sum_rents (if nonempty_array (VArr (List.map Spec.unit_to_js us))
               then VArr (List.map Spec.unit_to_js us) else synthetic_units)
    = Ok (Fin q)
    /\ q == fold_right (fun u acc => Spec.monthlyRent u + acc) 0 us.
Proof.
  destruct us as [|u us].
  - exists 0. split; reflexivity.
  - change (nonempty_array (VArr (List.map Spec.unit_to_js (u :: us)))) with true.
    cbv iota. unfold sum_rents.
    destruct (sum_rents_to_js (u :: us) (Qred 0)) as (q & Hq & Hs).
    exists q. split; [exact Hq|].
    rewrite Hs, Qred_correct. ring.
Qed.

Ltac project_metrics :=
  cbn [monthlyRent annualGSR vacancy egi maint mgmt opEx noi closingCost
       totalCost loanAmount r n monthlyPI annualDebtService dscr pointsCost
       cashInvested cashFlow capRate].

Ltac fin_arith :=
  repeat first [rewrite sub_fin | progress cbn [Num.mul Num.add num]].

Ltac unfold_spec :=
  cbv [Spec.grossScheduledRentAnnual Spec.effectiveGrossIncomeAnnual
       Spec.maintenanceAnnual Spec.managementAnnual Spec.operatingExpensesAnnual
       Spec.netOperatingIncomeAnnual Spec.loanAmount Spec.monthlyRate
       Spec.amortizingPayment Spec.total_monthly_rent Spec.totalAcquisitionCost
       Spec.annualDebtService Spec.with_vacancy
       Spec.units Spec.vacancyRate Spec.maintenancePctOfGrossRent
       Spec.managementPctOfEGI Spec.taxesAnnual Spec.insuranceAnnual
       Spec.hoaAnnual Spec.utilitiesLandlordAnnual Spec.otherOpExAnnual
       Spec.purchasePrice Spec.downPaymentPct Spec.annualRatePct Spec.termMonths
       Spec.closingCostPct Spec.pointsPct].

(** What [Report] computes on typed inputs, metric by metric. *)
Lemma Report_typed (i : Spec.InvestmentInputs) :
  exists m discount,
    Report (Spec.to_js i) = Ok m
    /\ Num.pow (num (1 + Spec.monthlyRate i)) (Fin (inject_Z (- Spec.termMonths i)))
       = Some discount
    /\ annualGSR m = num (Spec.grossScheduledRentAnnual i)
    /\ egi m = num (Spec.effectiveGrossIncomeAnnual i)
    /\ maint m = num (Spec.maintenanceAnnual i)
    /\ mgmt m = num (Spec.managementAnnual i)
    /\ opEx m = num (Spec.operatingExpensesAnnual i)
    /\ noi m = num (Spec.netOperatingIncomeAnnual i)
    /\ loanAmount m = num (Spec.loanAmount i)
    /\ r m = num (Spec.monthlyRate i)
    /\ monthlyPI m
       = Num.div (num (Spec.loanAmount i * Spec.monthlyRate i)) (Num.sub (Fin 1) discount)
    /\ annualDebtService m = Num.mul (monthlyPI m) (Fin 12)
    /\ dscr m = Num.div (noi m) (annualDebtService m)
    /\ capRate m = Num.div (noi m) (totalCost m)
    /\ totalCost m = num (Spec.totalAcquisitionCost i)
    /\ n m = lit (inject_Z (Spec.termMonths i)).
Proof.
  destruct i as [price closing points vac maintp mgmtp taxes ins hoa utils other
                 us down rate term].
  unfold Report, metrics_of, Spec.to_js.
  cbn -[num Num.mul Num.add Num.sub Num.div Num.pow Num.neg Qred sum_rents nonempty_array].
  destruct (sum_rents_units us) as (q & -> & Hq).
  cbn -[num Num.mul Num.add Num.sub Num.div Num.pow Num.neg Qred sum_rents nonempty_array].
  change (num 12) with (Fin 12). change (num 1) with (Fin 1).
  unfold_spec.
  replace (Num.div (num rate) (Fin 12)) with (num (rate / 12))
    by (unfold num at 2; rewrite div_fin by discriminate; qnorm; reflexivity).
  replace (Num.neg (num (inject_Z term))) with (Fin (inject_Z (- term)))
    by (unfold num at 1; rewrite inject_Z_Qred; cbn [Num.neg];
        change (- inject_Z term) with (inject_Z (- term));
        unfold num; now rewrite inject_Z_Qred).
  replace (Num.add (Fin 1) (num (rate / 12))) with (num (1 + rate / 12))
    by (cbn [Num.add num]; qnorm; reflexivity).
  change (num (1 + rate / 12)) with (Fin (Qred (1 + rate / 12))).
  rewrite pow_integer.
  cbn [bind].
  eexists. eexists. split; [reflexivity|]. split; [reflexivity|].
  project_metrics.
  repeat split; fin_arith; try reflexivity;
    solve [ qnorm; rewrite <- ?Hq; ring
          | f_equal; qnorm; ring ].
Qed.

(** [Report] reads its argument through [withDefaults] only. *)
Lemma Report_ext (a b : value) :
  withDefaults a = withDefaults b -> Report a = Report b.
Proof. unfold Report. now intros ->. Qed.

(** The payment on typed inputs with a positive rate. *)
Lemma payment_typed (i : Spec.InvestmentInputs) :
  0 < Spec.annualRatePct i -> (1 <= Spec.termMonths i)%Z ->
  exists m, Report (Spec.to_js i) = Ok m
    /\ monthlyPI m = num (Spec.amortizingPayment i)
    /\ annualDebtService m = num (Spec.annualDebtService i)
    /\ noi m = num (Spec.netOperatingIncomeAnnual i)
    /\ dscr m = Num.div (noi m) (annualDebtService m)
    /\ loanAmount m = num (Spec.loanAmount i)
    /\ r m = num (Spec.monthlyRate i)
    /\ n m = lit (inject_Z (Spec.termMonths i)).
Proof.
  intros Hr Ht.
  destruct (Report_typed i)
    as (m & disc & Hm & Hdisc & _ & _ & _ & _ & _ & Hnoi & Hloan & Hrm & Hpi
        & Hads & Hdscr & _ & _ & Hn).
  unfold num in Hdisc at 1. rewrite pow_integer in Hdisc.
  injection Hdisc as Hdisc.
  assert (Hrate : 0 < Spec.monthlyRate i).
  { unfold Spec.monthlyRate. apply Qlt_shift_div_l; [reflexivity|].
    now rewrite Qmult_0_l. }
  assert (Hb : 1 < 1 + Spec.monthlyRate i).
  { rewrite <- (Qplus_0_r 1) at 1. apply Qplus_lt_r. exact Hrate. }
  assert (Hnz : is_zero (Qred (1 + Spec.monthlyRate i)) = false).
  { rewrite is_zero_Qred. apply is_zero_false. intros E. rewrite E in Hb.
    discriminate Hb. }
  rewrite Hnz in Hdisc.
  destruct (- Spec.termMonths i =? 0)%Z eqn:Et; [apply Z.eqb_eq in Et; lia|].
  assert (Hpay : monthlyPI m = num (Spec.amortizingPayment i)).
  { rewrite Hpi, <- Hdisc. unfold num at 2. rewrite sub_fin.
    pose proof (discount_lt_1 _ _ Hb Ht) as Hlt.
    unfold num at 1 2. rewrite div_fin.
    - unfold Spec.amortizingPayment. qnorm. reflexivity.
    - rewrite !Qred_correct. intros E. lra. }
  exists m. repeat split; try assumption.
  rewrite Hads, Hpay. unfold Spec.annualDebtService.
  cbn [Num.mul num]. qnorm. reflexivity.
Qed.

(** The payment on typed inputs with a zero rate. *)
Lemma payment_typed_zero_rate (i : Spec.InvestmentInputs) :
  Spec.annualRatePct i == 0 ->
  exists m, Report (Spec.to_js i) = Ok m
    /\ monthlyPI m = NaN
    /\ loanAmount m = num (Spec.loanAmount i)
    /\ r m = num 0.
Proof.
  intros Hr.
  destruct (Report_typed i)
    as (m & disc & Hm & Hdisc & _ & _ & _ & _ & _ & _ & Hloan & Hrm & Hpi & _).
  unfold num in Hdisc at 1. rewrite pow_integer in Hdisc.
  injection Hdisc as Hdisc.
  assert (Hrate : Spec.monthlyRate i == 0)
    by (unfold Spec.monthlyRate; rewrite Hr; reflexivity).
  exists m. repeat split; try assumption.
  - rewrite Hpi.
    assert (Hb : Qred (1 + Spec.monthlyRate i) = 1%Q).
    { change 1%Q with (Qred 1) at 2. apply Qred_complete. rewrite Hrate. reflexivity. }
    rewrite Hb in Hdisc.
    assert (Hd : disc = Fin 1).
    { rewrite <- Hdisc. destruct (- Spec.termMonths i =? 0)%Z; [reflexivity|].
      cbn [is_zero Qnum Z.eqb]. change (Fin 1) with (num 1).
      apply num_eq. apply Qpower_1. }
    rewrite Hd.
    replace (num (Spec.loanAmount i * Spec.monthlyRate i)) with (Fin 0).
    + reflexivity.
    + change (Fin 0) with (num 0). apply num_eq. rewrite Hrate. ring.
  - rewrite Hrm. now apply num_eq.
Qed.

(** ** The calculator on arbitrary input *)

Lemma bind_Ok {A B : Type} (c : outcome A) (k : A -> outcome B) (b : B) :
  bind c k = Ok b -> exists a, c = Ok a /\ k a = Ok b.
Proof. destruct c; simpl; intros H; try discriminate. eauto. Qed.

Ltac invert_run H :=
  repeat match type of H with
         | bind _ _ = Ok _ =>
             let a := fresh "a" in
             let E := fresh "E" in
             apply bind_Ok in H; destruct H as (a & E & H)
         end.

(** The relations between the constants of one successful run, whatever
    the input was. *)
Lemma Report_relations (data : value) (m : Metrics) :
  Report data = Ok m ->
  annualGSR m = Num.mul (monthlyRent m) (Fin 12)
  /\ egi m = Num.sub (annualGSR m) (vacancy m)
  /\ noi m = Num.sub (egi m) (opEx m)
  /\ annualDebtService m = Num.mul (monthlyPI m) (Fin 12)
  /\ dscr m = Num.div (noi m) (annualDebtService m)
  /\ cashFlow m = Num.sub (noi m) (annualDebtService m)
  /\ capRate m = Num.div (noi m) (totalCost m).
Proof.
  unfold Report, metrics_of. intros H. invert_run H.
  injection H as <-. project_metrics.
  cbn [times minus divide plus arith bind ToNumber lit] in *.
  repeat match goal with
         | E : Ok _ = Ok ?x |- _ => is_var x; injection E as E; subst x
         end.
  repeat split; reflexivity.
Qed.

(** ** Worked inputs, typed *)


Lemma Report_P4 : Report P4 = Report (Spec.to_js typed_P4).
Proof. apply Report_ext. reflexivity. Qed.



Lemma Report_all_cash : Report all_cash = Report (Spec.to_js typed_all_cash).
Proof. apply Report_ext. reflexivity. Qed.

Lemma Report_all_cash_vacant :
  Report all_cash_vacant = Report (Spec.to_js typed_all_cash_vacant).
Proof. apply Report_ext. reflexivity. Qed.

Lemma Report_no_price : Report no_price = Report (Spec.to_js typed_no_price).
Proof. apply Report_ext. reflexivity. Qed.

(** ** Income pipeline *)


(** ** Defaulting *)

Lemma coalesce_not_nullish (a b : value) :
  nullish b = false -> nullish (coalesce a b) = false.
Proof. unfold coalesce. destruct (nullish a) eqn:E; auto. Qed.

Lemma coalesce_idem (a b : value) :
  nullish b = false -> coalesce (coalesce a b) b = coalesce a b.
Proof.
  intros Hb. unfold coalesce at 1.
  now rewrite (coalesce_not_nullish a b Hb).
Qed.

Lemma or_idem (a b : value) : or (or a b) b = or a b.
Proof.
  unfold or. destruct (truthy a) eqn:Ea.
  - now rewrite Ea.
  - now destruct (truthy b).
Qed.

Lemma units_or_synthetic_nonempty (u : value) :
  nonempty_array (units_or_synthetic u) = true.
Proof. unfold units_or_synthetic. destruct (nonempty_array u) eqn:E; auto. Qed.

(** C2. When every field other than [units] and [purchasePrice] is absent,
    the defaulting step fills closingPct 0.03, pointsOnLoanPctOfPrice
    0.0075, vacancyRate 0.05, maintPctOfGrossRent 0.08, mgmtPctOfEGI 0.08,
    downPct 0.25, rateAnnual 0.077, termMonths 360 and 0 for every annual
    dollar expense; an empty unit list becomes the single unit "Unit A" with
    0 rent; and on the P4 input annualGSR = 24000. *)
Theorem default_fill :
  (forall x : value,
     nullish x = false ->
     (forall k, k <> "units" -> k <> "purchasePrice" -> opt x k = VUndefined) ->
     withDefaults x = Ok (defaults_with (opt x "units") (opt x "purchasePrice")))
  /\ units_or_synthetic (VArr []) = VArr [unit_obj (VStr "Unit A") (lit 0)]
  /\ (exists m, Report P4 = Ok m /\ annualGSR m = num 24000).
Proof.
  split; [|split].
  - intros x Hx Habs. unfold withDefaults. rewrite Hx.
    repeat match goal with
           | |- context [opt x ?k] => rewrite (Habs k) by discriminate
           end.
    reflexivity.
  - reflexivity.
  - destruct (Report_typed typed_P4) as (m & disc & Hm & _ & Hgsr & _).
    exists m. rewrite Report_P4. split; [exact Hm | rewrite Hgsr; reflexivity].
Qed.

Lemma default_fill_witness :
  withDefaults P4 = Ok (defaults_with (opt P4 "units") (opt P4 "purchasePrice")).
Proof.
  apply (proj1 default_fill P4).
  - reflexivity.
  - intros k Hu Hp. simpl.
    destruct (String.eqb_spec k "units") as [->|_]; [contradiction|].
    destruct (String.eqb_spec k "purchasePrice") as [->|_]; [contradiction|].
    reflexivity.
Defined.

(** C10. [withDefaults] is idempotent: on every non-nullish input it returns
    an object [d] with [withDefaults d = d]; every defaultable field of [d]
    is non-nullish, its unit list is a non-empty array and its financing
    object carries its three fields. *)
Theorem withDefaults_idempotent (x : value) :
  nullish x = false ->
  exists d,
    withDefaults x = Ok d
    /\ withDefaults d = Ok d
    /\ forallb (fun k => negb (nullish (opt d k))) defaulted_fields = true
    /\ nonempty_array (opt d "units") = true
    /\ forallb (fun k => negb (nullish (opt (opt d "financing") k))) financing_fields = true.
Proof.
  intros Hx. unfold withDefaults at 1. rewrite Hx.
  eexists. split; [reflexivity|].
  fold (units_or_synthetic (opt x "units")).
  split; [|split; [|split]].
  - unfold withDefaults.
    cbn -[coalesce or lit synthetic_units nonempty_array units_or_synthetic].
    fold (units_or_synthetic (units_or_synthetic (opt x "units"))).
    rewrite !coalesce_idem by reflexivity. rewrite or_idem.
    unfold units_or_synthetic at 1. rewrite units_or_synthetic_nonempty.
    reflexivity.
  - cbn -[coalesce or lit synthetic_units nonempty_array units_or_synthetic].
    rewrite !coalesce_not_nullish by reflexivity.
    pose proof (units_or_synthetic_nonempty (opt x "units")) as Hu.
    destruct (units_or_synthetic (opt x "units")) as [| | | | |[|]|]; try discriminate.
    reflexivity.
  - cbn -[coalesce or lit synthetic_units nonempty_array units_or_synthetic].
    apply units_or_synthetic_nonempty.
  - cbn -[coalesce or lit synthetic_units nonempty_array units_or_synthetic].
    now rewrite !coalesce_not_nullish by reflexivity.
Qed.

Lemma withDefaults_idempotent_witness :
  exists d, withDefaults P4 = Ok d /\ withDefaults d = Ok d.
Proof.
  destruct (withDefaults_idempotent P4 eq_refl) as (d & H1 & H2 & _).
  exists d. split; assumption.
Defined.

(** ** Maintenance and management bases *)


(** ** The amortizing payment *)




(** ** Ratios over a zero denominator *)

Lemma no_loan_no_debt_service (i : Spec.InvestmentInputs) :
  Spec.downPaymentPct i == 1 -> num (Spec.annualDebtService i) = Fin 0.
Proof.
  intros Hd. change (Fin 0) with (num 0). apply num_eq.
  unfold Spec.annualDebtService, Spec.amortizingPayment, Spec.loanAmount.
  rewrite Hd. unfold Qdiv. ring.
Qed.

Lemma all_cash_run :
  exists m, Report all_cash = Ok m /\ annualDebtService m = Fin 0 /\ dscr m = PInf.
Proof.
  destruct (payment_typed typed_all_cash) as (m & Hm & _ & Hads & Hnoi & Hdscr & _);
    [reflexivity | simpl; lia |].
  rewrite no_loan_no_debt_service in Hads by reflexivity.
  exists m. rewrite Report_all_cash. repeat split; try assumption.
  rewrite Hdscr, Hads, Hnoi. reflexivity.
Qed.

(** C4, as the code has it.  With annualDebtService = 0 the ratio is the
    plain quotient: +Infinity on the all-cash purchase, NaN when the net
    operating income is 0 as well; the cap rate over a zero total cost is
    +Infinity. *)
Lemma zero_denominator_ratios :
  (exists m, Report all_cash = Ok m
     /\ annualDebtService m = Fin 0 /\ dscr m = PInf)
  /\ (exists m, Report all_cash_vacant = Ok m
        /\ annualDebtService m = Fin 0 /\ dscr m = NaN)
  /\ (exists m, Report no_price = Ok m
        /\ totalCost m = Fin 0 /\ capRate m = PInf).
Proof.
  split; [|split].
  - destruct (payment_typed typed_all_cash) as (m & Hm & _ & Hads & Hnoi & Hdscr & _);
      [reflexivity | simpl; lia |].
    rewrite no_loan_no_debt_service in Hads by reflexivity.
    exists m. rewrite Report_all_cash. repeat split; try assumption.
    rewrite Hdscr, Hads, Hnoi. reflexivity.
  - destruct (payment_typed typed_all_cash_vacant)
      as (m & Hm & _ & Hads & Hnoi & Hdscr & _); [reflexivity | simpl; lia |].
    rewrite no_loan_no_debt_service in Hads by reflexivity.
    exists m. rewrite Report_all_cash_vacant. repeat split; try assumption.
    rewrite Hdscr, Hads, Hnoi. reflexivity.
  - destruct (Report_typed typed_no_price)
      as (m & disc & Hm & _ & _ & _ & _ & _ & _ & Hnoi & _ & _ & _ & _ & _ & Hcap & Htot & _).
    exists m. rewrite Report_no_price. repeat split; try assumption.
    rewrite Hcap, Htot, Hnoi. reflexivity.
Qed.

(** C4, amended.  For every input on which the calculator returns with
    annualDebtService = 0, the debt service coverage ratio it computes is
    NaN, +Infinity or -Infinity, no sentinel being substituted; the same
    holds for the cap rate when totalCost = 0. *)
Theorem undefined_ratios (data : value) (m : Metrics) :
  Report data = Ok m ->
  (annualDebtService m = Fin 0 ->
   dscr m = NaN \/ dscr m = PInf \/ dscr m = NInf)
  /\ (totalCost m = Fin 0 ->
      capRate m = NaN \/ capRate m = PInf \/ capRate m = NInf).
Proof.
  intros H. apply Report_relations in H.
  destruct H as (_ & _ & _ & _ & Hdscr & _ & Hcap).
  split; intros Hz.
  - rewrite Hdscr, Hz. apply div_by_zero.
  - rewrite Hcap, Hz. apply div_by_zero.
Qed.

Lemma undefined_ratios_witness :
  exists m, Report all_cash = Ok m
    /\ (dscr m = NaN \/ dscr m = PInf \/ dscr m = NInf).
Proof.
  destruct all_cash_run as (m & E & Hz & _).
  exists m. split; [exact E|].
  exact (proj1 (undefined_ratios all_cash m E) Hz).
Defined.

(** What the renderer does with such a ratio: NaN is shown as 0, an
    infinity as itself; a NaN payment is shown as a dash. *)
Lemma rendered_ratio :
  dscr_shown NaN = lit 0 /\ dscr_shown PInf = VNum PInf
  /\ fmtUSD_is_dash (VNum NaN) = Ok true.
Proof. repeat split. Qed.

(** ** The worked payment *)

Lemma P4_payment_bounds :
  between 2673.60 2673.61 (Spec.amortizingPayment typed_P4) = true.
Proof. vm_compute. reflexivity. Qed.

Lemma P4_payment :
  exists m, Report P4 = Ok m
    /\ loanAmount m = num 375000
    /\ r m = num (0.077 / 12)
    /\ n m = lit 360
    /\ monthlyPI m = num (Spec.amortizingPayment typed_P4).
Proof.
  destruct (payment_typed typed_P4) as (m & Hm & Hpi & _ & _ & _ & Hloan & Hr & Hn);
    [reflexivity | simpl; lia |].
  exists m. rewrite Report_P4. repeat split; assumption.
Qed.

Lemma within_of_bounds (p lo hi c tol : Q) :
  between lo hi p = true ->
  (c - tol <= lo /\ hi <= c + tol -> within (num p) c tol = true)
  /\ (hi < c - tol \/ c + tol < lo -> within (num p) c tol = false).
Proof.
  unfold between. intros H. apply andb_true_iff in H as [Hlo Hhi].
  apply Qle_bool_iff in Hlo, Hhi.
  rewrite within_num. unfold within. split.
  - intros [H1 H2]. apply Qle_bool_iff. apply Qabs_Qle_condition. split; lra.
  - intros Hout. destruct (Qle_bool (Qabs (p - c)) tol) eqn:E; [|reflexivity].
    apply Qle_bool_iff in E. apply Qabs_Qle_condition in E. lra.
Qed.

(** C5, as the code has it.  On a loan of 375000 at 0.077 a year over 360
    months the payment is not within 0.01 of 2676.45. *)
Lemma payment_not_2676_45 :
  exists m, Report P4 = Ok m
    /\ loanAmount m = num 375000
    /\ r m = num (0.077 / 12)
    /\ n m = lit 360
    /\ within (monthlyPI m) 2676.45 0.01 = false.
Proof.
  destruct P4_payment as (m & Hm & Hloan & Hr & Hn & Hpi).
  exists m. repeat split; try assumption.
  rewrite Hpi.
  apply (proj2 (within_of_bounds _ _ _ 2676.45 0.01 P4_payment_bounds)).
  left. reflexivity.
Qed.

(** C5, amended.  For loanAmount = 375000, a yearly rate of 0.077 and 360
    months, the payment is 2673.60 to within 0.01. *)
Theorem payment_2673_60 :
  exists m, Report P4 = Ok m
    /\ loanAmount m = num 375000
    /\ r m = num (0.077 / 12)
    /\ n m = lit 360
    /\ within (monthlyPI m) 2673.60 0.01 = true.
Proof.
  destruct P4_payment as (m & Hm & Hloan & Hr & Hn & Hpi).
  exists m. repeat split; try assumption.
  rewrite Hpi.
  apply (proj1 (within_of_bounds _ _ _ 2673.60 0.01 P4_payment_bounds)).
  split; discriminate.
Qed.

(** ** Normalization of the upstream report *)

Lemma Array_map_defined (f : value -> outcome value) (l : list value) :
  (forall u, nullish u = false -> exists v, f u = Ok v) ->
  forallb (fun u => negb (nullish u)) l = true ->
  exists l', Array_map f l = Ok l'.
Proof.
  intros Hf. induction l as [|u l IH]; simpl; intros H.
  - eauto.
  - apply andb_true_iff in H as [Hu Hl].
    apply negb_true_iff in Hu.
    destruct (Hf u Hu) as (v & ->). destruct (IH Hl) as (l' & ->).
    simpl. eauto.
Qed.

Lemma map_unit_defined (u : value) :
  nullish u = false -> exists v, map_unit u = Ok v.
Proof. intros H. unfold map_unit, get. rewrite H. simpl. eauto. Qed.

Lemma map_comp_defined (ToString : value -> string) (c : value) :
  nullish c = false -> exists v, map_comp ToString c = Ok v.
Proof. intros H. unfold map_comp, get. rewrite H. simpl. eauto. Qed.

(** C7. On every report it can walk, [mapFromSchema] returns, and the
    calculator's defaulting step passes its fractions through: vacancyPct,
    maintenancePctOfGrossRent, managementPctOfEGI, downPaymentPct and
    rateAnnualPct reach the calculator divided by 100 when they are numbers
    and as 0.05, 0.08, 0.08, 0.25 and 0.077 otherwise; termYears reaches it
    multiplied by 12 when a number and as 360 months otherwise. *)
Theorem percent_normalization (ToString : value -> string) (x : value) :
  mappable x = true ->
  exists data d,
    mapFromSchema ToString x = Ok data
    /\ withDefaults data = Ok d
    /\ opt d "vacancyRate"
       = normalized_percent (opt (opt x "operatingAssumptions") "vacancyPct") 0.05
    /\ opt d "maintPctOfGrossRent"
       = normalized_percent
           (opt (opt x "operatingAssumptions") "maintenancePctOfGrossRent") 0.08
    /\ opt d "mgmtPctOfEGI"
       = normalized_percent (opt (opt x "operatingAssumptions") "managementPctOfEGI") 0.08
    /\ opt (opt d "financing") "downPct"
       = normalized_percent (opt (opt x "financing") "downPaymentPct") 0.25
    /\ opt (opt d "financing") "rateAnnual"
       = normalized_percent (opt (opt x "financing") "rateAnnualPct") 0.077
    /\ opt (opt d "financing") "termMonths"
       = normalized_term (opt (opt x "financing") "termYears") 360.
Proof.
  unfold mappable. intros H.
  apply andb_true_iff in H as [H Hcomps]. apply andb_true_iff in H as [Hx Hunits].
  apply negb_true_iff in Hx.
  assert (Hu : exists units,
             match opt x "units" with
             | VArr (u :: rest) =>
                 let* l := Array_map map_unit (u :: rest) in Ok (VArr l)
             | _ => Ok synthetic_units
             end = Ok units).
  { destruct (opt x "units") as [| | | | |us|]; eauto.
    destruct us as [|u us]; eauto.
    destruct (Array_map_defined map_unit (u :: us) map_unit_defined Hunits) as (l & ->).
    simpl. eauto. }
  assert (Hc : exists comps,
             match opt x "rentComps" with
             | VArr cs => let* l := Array_map (map_comp ToString) cs in Ok (VArr l)
             | _ => Ok (VArr [])
             end = Ok comps).
  { destruct (opt x "rentComps") as [| | | | |cs|]; simpl; eauto.
    destruct (Array_map_defined _ cs (map_comp_defined ToString) Hcomps) as (l & ->).
    simpl. eauto. }
  destruct Hu as (units & Hu). destruct Hc as (comps & Hc).
  unfold mapFromSchema, get. rewrite Hx. cbn [bind].
  rewrite Hu. cbn [bind]. rewrite Hc. cbn [bind].
  eexists. eexists. split; [reflexivity|].
  split; [reflexivity|].
  cbn -[coalesce or lit nonempty_array synthetic_units pctToDec yearsToMonths].
  repeat split.
  all: match goal with
       | |- context [pctToDec ?a _] => destruct a; reflexivity
       | |- context [yearsToMonths ?a _] =>
           destruct a; try reflexivity;
           cbn [yearsToMonths normalized_term coalesce nullish];
           f_equal; exact (mul_comm _ (Fin 12))
       end.
Qed.

Lemma percent_normalization_witness :
  exists data d,
    mapFromSchema (fun _ => "") upstream_report = Ok data
    /\ withDefaults data = Ok d
    /\ opt d "vacancyRate" = lit 0.05
    /\ opt d "mgmtPctOfEGI" = lit 0.08
    /\ opt (opt d "financing") "rateAnnual" = lit 0.077
    /\ opt (opt d "financing") "termMonths" = lit 360.
Proof.
  destruct (percent_normalization (fun _ => "") upstream_report eq_refl)
    as (data & d & H1 & H2 & Hv & _ & Hm & _ & Hr & Ht).
  exists data, d. repeat split; try assumption.
Defined.

(** ** The schema constants *)

(** C8. The contract holds of [PROPERTY_REPORT_JSON_SCHEMA]: it requires
    and declares exactly the fourteen top-level keys, every object schema
    of its tree forbids additional properties, [units] needs at least one
    item and [rentComps] at least five, and [sensitivity] has exactly the
    five named scenarios, each an object with exactly the four fields.  It
    fails of [PROPERTY_REPORT_SCHEMA]: there [$defs] sits inside
    [properties], so a fifteenth top-level property is declared and the
    references ["#/$defs/unit"], ["#/$defs/rentComp"] and
    ["#/$defs/sensitivityCase"] lead nowhere; the definitions they were
    meant to reach are found under ["#/properties/$defs"]. *)
Theorem schema_contract :
  (Schema.contract PROPERTY_REPORT_JSON_SCHEMA = true
   /\ Schema.required PROPERTY_REPORT_JSON_SCHEMA = Schema.top_level_keys
   /\ Schema.property_names PROPERTY_REPORT_JSON_SCHEMA = Schema.top_level_keys
   /\ Schema.closed_everywhere PROPERTY_REPORT_JSON_SCHEMA = true
   /\ opt (Schema.property PROPERTY_REPORT_JSON_SCHEMA "units") "minItems" = lit 1
   /\ opt (Schema.property PROPERTY_REPORT_JSON_SCHEMA "rentComps") "minItems" = lit 5
   /\ Schema.exactly (Schema.property PROPERTY_REPORT_JSON_SCHEMA "sensitivity")
        Schema.scenario_names = true
   /\ Schema.scenarios_uniform PROPERTY_REPORT_JSON_SCHEMA = true)
  /\ (Schema.contract schema_of_part_001 = false
      /\ Schema.required schema_of_part_001 = Schema.top_level_keys
      /\ Schema.property_names schema_of_part_001
         = (Schema.top_level_keys ++ ["$defs"])%list
      /\ Schema.subschemas 8 schema_of_part_001 schema_of_part_001
         = Schema.Dangling (VStr "#/$defs/unit")
      /\ Schema.resolve schema_of_part_001 "#/$defs/unit" = None
      /\ Schema.resolve schema_of_part_001 "#/$defs/rentComp" = None
      /\ Schema.resolve schema_of_part_001 "#/$defs/sensitivityCase" = None
      /\ Schema.scenarios_uniform schema_of_part_001 = false
      /\ (exists sc, Schema.resolve schema_of_part_001 "#/properties/$defs/sensitivityCase"
                     = Some sc
                     /\ Schema.exactly sc Schema.scenario_fields = true)
      /\ opt (Schema.property schema_of_part_001 "units") "minItems" = lit 1
      /\ opt (Schema.property schema_of_part_001 "rentComps") "minItems" = lit 5).
Proof.
  split.
  - repeat split; vm_compute; reflexivity.
  - repeat split; try (vm_compute; reflexivity).
    eexists. split; vm_compute; reflexivity.
Qed.

(** ** Objects by reference: no mutation, same result *)

Section HeapFacts.

Import Heap.

Implicit Types (h : gmap loc cell) (v x : hvalue) (c : cell).

Lemma alloc_spec c h :
  exists l, alloc c h = (HRef l, <[l := c]> h) /\ h !! l = None.
Proof.
  exists (fresh (dom h)). split; [reflexivity|].
  apply not_elem_of_dom. apply is_fresh.
Qed.

Lemma valid_weaken h h' v : h ⊆ h' -> valid h v -> valid h' v.
Proof.
  intros Hsub. destruct v; simpl; auto.
  intros [c Hc]. exists c. eapply lookup_weaken; eauto.
Qed.

Lemma closed_insert h l c :
  closed h -> h !! l = None -> Forall (valid (<[l := c]> h)) (cell_values c) ->
  closed (<[l := c]> h).
Proof.
  intros Hcl Hl Hc l' c' Hl'.
  destruct (decide (l = l')) as [<-|Hne].
  - rewrite lookup_insert_eq in Hl'. injection Hl' as <-. exact Hc.
  - rewrite lookup_insert_ne in Hl' by exact Hne.
    eapply Forall_impl; [exact (Hcl l' c' Hl')|].
    intros v. apply valid_weaken. now apply insert_subseteq.
Qed.

Lemma hlookup_valid h (ps : list (string * hvalue)) k v :
  Forall (valid h) (List.map snd ps) -> hlookup k ps = Some v -> valid h v.
Proof.
  induction ps as [|[k' v'] ps IH]; simpl; [discriminate|].
  intros Hall. inversion Hall as [|? ? Hv Hrest]; subst.
  destruct (String.eqb k k'); [intros [= <-]; exact Hv | now apply IH].
Qed.

Lemma valid_hopt h x k : closed h -> valid h (hopt h x k).
Proof.
  intros Hcl. unfold hopt. destruct x as [| | | | |l]; simpl; auto.
  destruct (h !! l) as [[ps|es]|] eqn:E; simpl; auto.
  destruct (hlookup k ps) as [v|] eqn:Ek; simpl; auto.
  eapply hlookup_valid; [exact (Hcl l _ E) | exact Ek].
Qed.

(** A snapshot only depends on the cells it reads. *)
Lemma snapshot_stable h h' :
  h ⊆ h' -> closed h ->
  forall k v, valid h v -> snapshot k h' v = snapshot k h v.
Proof.
  intros Hsub Hcl. induction k as [|k IH]; intros v Hv.
  - destruct v as [| | | | |l]; simpl; auto.
    destruct Hv as [c Hc]. rewrite Hc, (lookup_weaken _ _ _ _ Hc Hsub). reflexivity.
  - destruct v as [| | | | |l]; simpl; auto.
    destruct Hv as [c Hc]. rewrite Hc, (lookup_weaken _ _ _ _ Hc Hsub).
    pose proof (Hcl l c Hc) as Hall. clear Hc.
    destruct c as [ps|es]; simpl in Hall; f_equal.
    + induction ps as [|[k' v'] ps IHps]; simpl; [reflexivity|].
      inversion Hall as [|? ? Hv' Hrest]; subst.
      f_equal; [f_equal; now apply IH | now apply IHps].
    + induction es as [|e es IHes]; simpl; [reflexivity|].
      inversion Hall as [|? ? Hv' Hrest]; subst.
      f_equal; [now apply IH | now apply IHes].
Qed.

Lemma lookup_snapshot_props k h key (ps : list (string * hvalue)) :
  lookup key (List.map (fun p => (fst p, snapshot k h (snd p))) ps)
  = option_map (snapshot k h) (hlookup key ps).
Proof.
  induction ps as [|[k' v'] ps IH]; simpl; [reflexivity|].
  destruct (String.eqb key k'); [reflexivity | exact IH].
Qed.

(** Reading a property and then looking is looking and then reading. *)
Lemma snapshot_hopt k h v key :
  snapshot k h (hopt h v key) = opt (snapshot (S k) h v) key.
Proof.
  destruct v as [| | | | |l]; try (destruct k; reflexivity).
  simpl. destruct (h !! l) as [[ps|es]|] eqn:E; try (destruct k; reflexivity).
  simpl. rewrite lookup_snapshot_props.
  destruct (hlookup key ps); [reflexivity | destruct k; reflexivity].
Qed.

Lemma nullish_snapshot k h v : nullish (snapshot k h v) = hnullish v.
Proof.
  destruct v as [| | | | |l]; try (destruct k; reflexivity).
  destruct k; simpl; destruct (h !! l) as [[ps|es]|]; reflexivity.
Qed.

Lemma truthy_snapshot k h v : truthy (snapshot k h v) = htruthy v.
Proof.
  destruct v as [| | | | |l]; try (destruct k; reflexivity).
  destruct k; simpl; destruct (h !! l) as [[ps|es]|]; reflexivity.
Qed.

Lemma snapshot_hlit k h q : snapshot k h (hlit q) = lit q.
Proof. destruct k; reflexivity. Qed.

Lemma nonempty_snapshot k h v :
  nonempty_array (snapshot (S k) h v) = h_nonempty_array h v.
Proof.
  destruct v as [| | | | |l]; simpl; auto.
  destruct (h !! l) as [[ps|[|e es]]|]; reflexivity.
Qed.

Lemma snapshot_hcoalesce k h a b :
  snapshot k h (hcoalesce a b) = coalesce (snapshot k h a) (snapshot k h b).
Proof.
  unfold hcoalesce, coalesce. rewrite nullish_snapshot.
  destruct (hnullish a); reflexivity.
Qed.

Lemma snapshot_hor k h a b :
  snapshot k h (hor a b) = or (snapshot k h a) (snapshot k h b).
Proof.
  unfold hor, or. rewrite truthy_snapshot.
  destruct (htruthy a); reflexivity.
Qed.

Lemma snapshot_obj k h l (ps : list (string * hvalue)) :
  h !! l = Some (CObj ps) ->
  snapshot (S k) h (HRef l) = VObj (List.map (fun p => (fst p, snapshot k h (snd p))) ps).
Proof. intros H. simpl. now rewrite H. Qed.

Lemma snapshot_arr k h l (es : list hvalue) :
  h !! l = Some (CArr es) ->
  snapshot (S k) h (HRef l) = VArr (List.map (snapshot k h) es).
Proof. intros H. simpl. now rewrite H. Qed.

(** A field of [d] taken from [x], seen after the run. *)
Lemma snapshot_field k h h' x key :
  h ⊆ h' -> closed h ->
  snapshot k h' (hopt h x key) = opt (snapshot (S k) h x) key.
Proof.
  intros Hsub Hcl.
  rewrite (snapshot_stable h h' Hsub Hcl) by now apply valid_hopt.
  apply snapshot_hopt.
Qed.

Lemma snapshot_defaulted k h h' x key q :
  h ⊆ h' -> closed h ->
  snapshot k h' (hcoalesce (hopt h x key) (hlit q))
  = coalesce (opt (snapshot (S k) h x) key) (lit q).
Proof.
  intros Hsub Hcl. rewrite snapshot_hcoalesce, snapshot_hlit.
  now rewrite (snapshot_field k h h' x key Hsub Hcl).
Qed.

Lemma valid_hcoalesce h a b : valid h a -> valid h b -> valid h (hcoalesce a b).
Proof. unfold hcoalesce. now destruct (hnullish a). Qed.

Lemma valid_hor h a b : valid h a -> valid h b -> valid h (hor a b).
Proof. unfold hor. now destruct (htruthy a). Qed.

Lemma valid_read h h' x k : h ⊆ h' -> closed h -> valid h' (hopt h x k).
Proof. intros Hsub Hcl. eapply valid_weaken; [exact Hsub | now apply valid_hopt]. Qed.

(** One literal: a new cell, and nothing else changes. *)
Lemma alloc_step c h :
  closed h -> Forall (valid h) (cell_values c) ->
  exists l,
    alloc c h = (HRef l, <[l := c]> h)
    /\ h !! l = None
    /\ h ⊆ <[l := c]> h
    /\ closed (<[l := c]> h)
    /\ <[l := c]> h !! l = Some c.
Proof.
  intros Hcl Hc. destruct (alloc_spec c h) as (l & Hal & Hl).
  exists l. split; [exact Hal|]. split; [exact Hl|].
  assert (Hsub : h ⊆ <[l := c]> h) by now apply insert_subseteq.
  split; [exact Hsub|]. split; [|apply lookup_insert_eq].
  apply closed_insert; [assumption..|].
  eapply Forall_impl; [exact Hc|]. intros v. now apply valid_weaken.
Qed.

Ltac valid_value :=
  first
    [ exact I
    | assumption
    | apply valid_hcoalesce; valid_value
    | apply valid_hor; valid_value
    | solve [apply valid_hopt; assumption]
    | solve [apply valid_read; assumption]
    | solve [eexists; eassumption]
    | solve [eapply valid_weaken; [eassumption | valid_value]] ].

Ltac valid_values := simpl; repeat (constructor; [valid_value|]); constructor.

(** The synthetic unit list, or the array of the argument. *)
Lemma units_step h x :
  closed h ->
  exists units h1,
    (if h_nonempty_array h (hopt h x "units") then (hopt h x "units", h)
     else
       let '(u, h0) := alloc (CObj [("name", HStr "Unit A"); ("rent", hlit 0)]) h in
       alloc (CArr [u]) h0) = (units, h1)
    /\ h ⊆ h1 /\ closed h1 /\ valid h1 units
    /\ forall h', h1 ⊆ h' ->
         snapshot 2 h' units
         = units_or_synthetic (opt (snapshot 3 h x) "units").
Proof.
  intros Hcl. unfold units_or_synthetic.
  rewrite <- (snapshot_hopt 2 h x "units"), nonempty_snapshot.
  destruct (h_nonempty_array h (hopt h x "units")) eqn:E.
  - exists (hopt h x "units"), h. split; [reflexivity|].
    split; [reflexivity|]. split; [assumption|]. split; [now apply valid_hopt|].
    intros h' Hsub. apply snapshot_stable; [assumption..|now apply valid_hopt].
  - destruct (alloc_step (CObj [("name", HStr "Unit A"); ("rent", hlit 0)]) h Hcl)
      as (lu & -> & Hlu & Hsub0 & Hcl0 & Hget0); [valid_values|].
    destruct (alloc_step (CArr [HRef lu]) _ Hcl0)
      as (la & -> & Hla & Hsub1 & Hcl1 & Hget1); [valid_values|].
    do 2 eexists. split; [reflexivity|].
    split; [etrans; eassumption|]. split; [assumption|].
    split; [eexists; eassumption|].
    intros h' Hsub.
    pose proof (lookup_weaken _ _ _ _ Hget1 Hsub) as Ha.
    pose proof (lookup_weaken _ _ _ _ (lookup_weaken _ _ _ _ Hget0 Hsub1) Hsub) as Hu.
    rewrite (snapshot_arr _ _ _ _ Ha). cbn [List.map].
    rewrite (snapshot_obj _ _ _ _ Hu). reflexivity.
Qed.

(** The empty [comps] list, or the array of the argument. *)
Lemma comps_step h h2 x :
  closed h -> h ⊆ h2 -> closed h2 ->
  exists comps h3,
    (if hnullish (hopt h x "comps") then alloc (CArr []) h2
     else (hopt h x "comps", h2)) = (comps, h3)
    /\ h2 ⊆ h3 /\ closed h3 /\ valid h3 comps
    /\ forall h', h3 ⊆ h' ->
         snapshot 2 h' comps = coalesce (opt (snapshot 3 h x) "comps") (VArr []).
Proof.
  intros Hcl Hsub2 Hcl2. unfold coalesce.
  rewrite <- (snapshot_hopt 2 h x "comps"), nullish_snapshot.
  destruct (hnullish (hopt h x "comps")) eqn:E.
  - destruct (alloc_step (CArr []) h2 Hcl2)
      as (lc & -> & Hlc & Hsub3 & Hcl3 & Hget3); [valid_values|].
    do 2 eexists. split; [reflexivity|].
    split; [assumption|]. split; [assumption|]. split; [eexists; eassumption|].
    intros h' Hsub.
    pose proof (lookup_weaken _ _ _ _ Hget3 Hsub) as Hc.
    rewrite (snapshot_arr _ _ _ _ Hc). reflexivity.
  - exists (hopt h x "comps"), h2. split; [reflexivity|].
    split; [reflexivity|]. split; [assumption|].
    split; [now apply valid_read|].
    intros h' Hsub. apply snapshot_stable; [etrans; eassumption | assumption |].
    now apply valid_hopt.
Qed.

(** What [withDefaults] leaves in the store, and what it returns. *)
Lemma withDefaults_h_run h x :
  closed h -> hnullish x = false ->
  exists d h',
    withDefaults_h x h = Ok (d, h')
    /\ h ⊆ h'
    /\ closed h'
    /\ valid h' d
    /\ withDefaults (snapshot 3 h x) = Ok (snapshot 3 h' d).
Proof.
  intros Hcl Hx. unfold withDefaults_h. rewrite Hx.
  destruct (units_step h x Hcl) as (units & h1 & -> & Hsub1 & Hcl1 & Hvu & Hunits).
  match goal with
  | |- context [alloc ?c h1] =>
      destruct (alloc_step c h1 Hcl1) as (lf & -> & Hlf & Hsubf & Hclf & Hgetf);
        [valid_values|]
  end.
  assert (Hsub2 : h ⊆ <[lf := _]> h1) by (etrans; eassumption).
  destruct (comps_step h _ x Hcl Hsub2 Hclf)
    as (comps & h3 & -> & Hsub3 & Hcl3 & Hvc & Hcomps).
  assert (Hsub03 : h ⊆ h3) by (etrans; eassumption).
  assert (Hvu3 : valid h3 units)
    by (eapply valid_weaken; [|exact Hvu]; etrans; eassumption).
  assert (Hvf3 : valid h3 (HRef lf))
    by (eexists; eapply lookup_weaken; [exact Hgetf | exact Hsub3]).
  match goal with
  | |- context [alloc ?c h3] =>
      destruct (alloc_step c h3 Hcl3) as (ld & -> & Hld & Hsubd & Hcld & Hgetd);
        [valid_values|]
  end.
  match type of Hgetd with ?hd !! _ = _ => set (h' := hd) in * end.
  assert (Hsub : h ⊆ h') by (etrans; eassumption).
  assert (Hsub1' : h1 ⊆ h') by (do 2 (etrans; [eassumption|]); assumption).
  assert (Hf : h' !! lf = Some _)
    by (eapply lookup_weaken; [exact Hgetf | etrans; eassumption]).
  do 2 eexists. split; [reflexivity|].
  split; [exact Hsub|]. split; [exact Hcld|]. split; [eexists; exact Hgetd|].
  unfold withDefaults. rewrite nullish_snapshot, Hx.
  f_equal. rewrite (snapshot_obj _ _ _ _ Hgetd). cbn [List.map fst snd].
  rewrite (snapshot_obj _ _ _ _ Hf). cbn [List.map fst snd].
  rewrite (Hunits h' Hsub1'), (Hcomps h' Hsubd).
  rewrite snapshot_hor, snapshot_hcoalesce.
  rewrite !(snapshot_defaulted _ h h' _ _ _ Hsub Hcl).
  rewrite !(snapshot_field _ h h' _ _ Hsub Hcl).
  rewrite !snapshot_hopt.
  reflexivity.
Qed.

Lemma result_bind {A B : Type} (c : outcome A) (b : B) :
  result (let* a := c in Ok (a, b)) = c.
Proof. destruct c; reflexivity. Qed.

Lemma result_Ok {A B : Type} (o : outcome (A * B)) (a : A) :
  result o = Ok a <-> exists b, o = Ok (a, b).
Proof.
  split.
  - destruct o as [[a' b]| |]; simpl; intros H; try discriminate.
    injection H as ->. eauto.
  - intros (b & ->). reflexivity.
Qed.

(** The run on the store computes what [Report] computes on the contents
    of its argument. *)
Lemma Report_h_refines h x :
  closed h -> result (Report_h x h) = Report (snapshot 3 h x).
Proof.
  intros Hcl. unfold Report_h, Report.
  destruct (hnullish x) eqn:Hx.
  - unfold withDefaults_h, withDefaults. now rewrite nullish_snapshot, Hx.
  - destruct (withDefaults_h_run h x Hcl Hx) as (d & h' & -> & _ & _ & _ & ->).
    cbn [bind fst snd]. apply result_bind.
Qed.

Lemma Report_h_frame h x m h' :
  closed h -> Report_h x h = Ok (m, h') -> h ⊆ h' /\ closed h'.
Proof.
  intros Hcl. unfold Report_h.
  destruct (hnullish x) eqn:Hx.
  - unfold withDefaults_h. rewrite Hx. discriminate.
  - destruct (withDefaults_h_run h x Hcl Hx) as (d & h1 & -> & Hsub & Hcl1 & _).
    cbn [bind fst snd]. destruct (metrics_of _); simpl; try discriminate.
    intros [= _ <-]. split; assumption.
Qed.

End HeapFacts.

(** C9. The calculator is a function of the contents of its input and
    writes nothing.  After a run on a well-formed store every object that
    existed before is unchanged, so the input reads as it did; the metrics
    are those of [Report] on the input's contents; running again on the same
    input returns the same metrics, and so does a run on any input with the
    same contents in any other store. *)
Theorem calculator_pure (h : gmap Heap.loc Heap.cell) (x : Heap.hvalue)
    (m : Metrics) (h' : gmap Heap.loc Heap.cell) :
  Heap.closed h -> Heap.valid h x ->
  Heap.Report_h x h = Ok (m, h') ->
  (forall l c, h !! l = Some c -> h' !! l = Some c)
  /\ (forall k, Heap.snapshot k h' x = Heap.snapshot k h x)
  /\ Report (Heap.snapshot 3 h x) = Ok m
  /\ (exists h'', Heap.Report_h x h' = Ok (m, h''))
  /\ (forall h2 x2,
        Heap.closed h2 -> Heap.snapshot 3 h2 x2 = Heap.snapshot 3 h x ->
        exists h2', Heap.Report_h x2 h2 = Ok (m, h2')).
Proof.
  intros Hcl Hv Hrun.
  destruct (Report_h_frame h x m h' Hcl Hrun) as [Hsub Hcl'].
  assert (Hstable : forall k, Heap.snapshot k h' x = Heap.snapshot k h x)
    by (intros k; now apply snapshot_stable).
  assert (Hm : Report (Heap.snapshot 3 h x) = Ok m).
  { rewrite <- Report_h_refines by assumption. apply result_Ok. eauto. }
  assert (Hany : forall h2 x2,
             Heap.closed h2 -> Heap.snapshot 3 h2 x2 = Heap.snapshot 3 h x ->
             exists h2', Heap.Report_h x2 h2 = Ok (m, h2')).
  { intros h2 x2 Hcl2 Hsame. apply result_Ok.
    rewrite Report_h_refines by assumption. now rewrite Hsame. }
  split; [|split; [|split; [|split]]].
  - intros l c Hl. eapply lookup_weaken; eauto.
  - exact Hstable.
  - exact Hm.
  - apply Hany; [assumption | apply Hstable].
  - exact Hany.
Qed.

Lemma P4_store_closed : Heap.closed P4_store.
Proof.
  intros l c H. unfold P4_store in H.
  repeat (apply lookup_insert_Some in H as [[<- <-]|[_ H]];
          [repeat constructor; eexists; reflexivity|]).
  apply lookup_singleton_Some in H as [<- <-].
  repeat constructor.
Qed.

Lemma P4_store_run :
  exists m h', Heap.Report_h P4_ref P4_store = Ok (m, h').
Proof. do 2 eexists. vm_compute. reflexivity. Qed.

Lemma calculator_pure_witness :
  exists m h',
    Heap.Report_h P4_ref P4_store = Ok (m, h')
    /\ (forall l c, P4_store !! l = Some c -> h' !! l = Some c)
    /\ Report (Heap.snapshot 3 P4_store P4_ref) = Ok m.
Proof.
  destruct P4_store_run as (m & h' & Hrun).
  exists m, h'. split; [exact Hrun|].
  destruct (calculator_pure P4_store P4_ref m h' P4_store_closed) as (H1 & _ & H3 & _).
  - eexists. reflexivity.
  - exact Hrun.
  - split; assumption.
Defined.

(** ** The cash side of the calculator *)

(** Acquisition and cash constants on typed inputs. *)
Lemma Report_typed_cash (i : Spec.InvestmentInputs) :
  exists m,
    Report (Spec.to_js i) = Ok m
    /\ closingCost m = num (Spec.purchasePrice i * Spec.closingCostPct i)
    /\ pointsCost m = num (Spec.purchasePrice i * Spec.pointsPct i)
    /\ cashInvested m
       = num (Spec.purchasePrice i * Spec.downPaymentPct i
              + Spec.purchasePrice i * Spec.closingCostPct i
              + Spec.purchasePrice i * Spec.pointsPct i)
    /\ cashFlow m = Num.sub (noi m) (annualDebtService m)
    /\ vacancy m = num (Spec.grossScheduledRentAnnual i * Spec.vacancyRate i).
Proof.
  destruct i as [price closing points vac maintp mgmtp taxes ins hoa utils other
                 us down rate term].
  unfold Report, metrics_of, Spec.to_js.
  cbn -[num Num.mul Num.add Num.sub Num.div Num.pow Num.neg Qred sum_rents nonempty_array].
  destruct (sum_rents_units us) as (q & -> & Hq).
  cbn -[num Num.mul Num.add Num.sub Num.div Num.pow Num.neg Qred sum_rents nonempty_array].
  change (num 12) with (Fin 12). change (num 1) with (Fin 1).
  unfold_spec.
  replace (Num.div (num rate) (Fin 12)) with (num (rate / 12))
    by (unfold num at 2; rewrite div_fin by discriminate; qnorm; reflexivity).
  replace (Num.neg (num (inject_Z term))) with (Fin (inject_Z (- term)))
    by (unfold num at 1; rewrite inject_Z_Qred; cbn [Num.neg];
        change (- inject_Z term) with (inject_Z (- term));
        unfold num; now rewrite inject_Z_Qred).
  replace (Num.add (Fin 1) (num (rate / 12))) with (num (1 + rate / 12))
    by (cbn [Num.add num]; qnorm; reflexivity).
  change (num (1 + rate / 12)) with (Fin (Qred (1 + rate / 12))).
  rewrite pow_integer.
  cbn [bind].
  eexists. split; [reflexivity|].
  project_metrics.
  repeat split; fin_arith; try reflexivity;
    solve [ qnorm; rewrite <- ?Hq; ring
          | f_equal; qnorm; ring ].
Qed.

Lemma Ok_inj {A : Type} (a b : A) : Ok a = Ok b -> a = b.
Proof. now intros [=]. Qed.









(** X4. At a zero interest rate the payment is not a number, whatever the
    loan and the term; so are the debt service, the coverage ratio and the
    cash flow.  The page prints a dash for the payment and the cash flow
    and a ratio of 0, while the income side is computed as usual. *)
Theorem zero_rate_report (i : Spec.InvestmentInputs) :
  Spec.annualRatePct i == 0 ->
  exists m,
    Report (Spec.to_js i) = Ok m
    /\ monthlyPI m = NaN /\ annualDebtService m = NaN
    /\ dscr m = NaN /\ cashFlow m = NaN
    /\ fmtUSD_is_dash (VNum (monthlyPI m)) = Ok true
    /\ fmtUSD_is_dash (VNum (cashFlow m)) = Ok true
    /\ dscr_shown (dscr m) = lit 0
    /\ noi m = num (Spec.netOperatingIncomeAnnual i)
    /\ fmtUSD_is_dash (VNum (noi m)) = Ok false.
Proof.
  intros Hr.
  destruct (payment_typed_zero_rate i Hr) as (m & Hm & Hpi & _).
  destruct (Report_typed i)
    as (m' & disc & Hm' & _ & _ & _ & _ & _ & _ & Hnoi & _ & _ & _
        & Hads & Hdscr & _).
  rewrite Hm in Hm'. apply Ok_inj in Hm'. subst m'.
  destruct (Report_typed_cash i) as (m' & Hm' & _ & _ & _ & Hcf & _).
  rewrite Hm in Hm'. apply Ok_inj in Hm'. subst m'.
  rewrite Hpi in Hads. cbn [Num.mul] in Hads.
  exists m. split; [exact Hm|].
  rewrite Hcf, Hdscr, Hads, Hpi, Hnoi.
  repeat split; reflexivity.
Qed.

Lemma zero_rate_report_witness :
  exists m,
    Report (Spec.to_js typed_zero_rate) = Ok m
    /\ monthlyPI m = NaN /\ annualDebtService m = NaN
    /\ dscr m = NaN /\ cashFlow m = NaN
    /\ fmtUSD_is_dash (VNum (monthlyPI m)) = Ok true
    /\ fmtUSD_is_dash (VNum (cashFlow m)) = Ok true
    /\ dscr_shown (dscr m) = lit 0
    /\ noi m = num (Spec.netOperatingIncomeAnnual typed_zero_rate)
    /\ fmtUSD_is_dash (VNum (noi m)) = Ok false.
Proof. apply (zero_rate_report typed_zero_rate). reflexivity. Defined.

(** X5. A term of zero months with a positive loan and rate divides the
    interest by zero: the payment and the debt service are infinite, the
    coverage ratio is 0 and the cash flow is minus infinity. *)
Theorem zero_term_report (i : Spec.InvestmentInputs) :
  0 < Spec.loanAmount i -> 0 < Spec.annualRatePct i -> Spec.termMonths i = 0%Z ->
  exists m,
    Report (Spec.to_js i) = Ok m
    /\ monthlyPI m = PInf /\ annualDebtService m = PInf
    /\ dscr m = Fin 0 /\ cashFlow m = NInf.
Proof.
  intros HL Hr Ht.
  destruct (Report_typed i)
    as (m & disc & Hm & Hdisc & _ & _ & _ & _ & _ & Hnoi & _ & _ & Hpi
        & Hads & Hdscr & _).
  destruct (Report_typed_cash i) as (m' & Hm' & _ & _ & _ & Hcf & _).
  rewrite Hm in Hm'. apply Ok_inj in Hm'. subst m'.
  rewrite Ht in Hdisc. unfold num in Hdisc at 1. rewrite pow_integer in Hdisc.
  cbn [Z.opp Z.eqb] in Hdisc. injection Hdisc as <-.
  assert (Hrate : 0 < Spec.monthlyRate i).
  { unfold Spec.monthlyRate. apply Qlt_shift_div_l; [reflexivity|].
    now rewrite Qmult_0_l. }
  assert (Hlr : 0 < Spec.loanAmount i * Spec.monthlyRate i) by nra.
  assert (Hp : monthlyPI m = PInf).
  { rewrite Hpi. change (Num.sub (Fin 1) (Fin 1)) with (Fin 0).
    unfold num, Num.div. cbn [is_zero Qnum Z.eqb].
    assert (Hlr' : 0 < Qred (Spec.loanAmount i * Spec.monthlyRate i))
      by (rewrite Qred_correct; exact Hlr).
    destruct (Qred (Spec.loanAmount i * Spec.monthlyRate i)) as [a b].
    unfold Qlt in Hlr'. cbn in Hlr'. unfold qsign. cbn [Qnum].
    destruct a; try lia. reflexivity. }
  exists m. split; [exact Hm|].
  rewrite Hcf, Hdscr, Hads, Hp, Hnoi.
  repeat split; reflexivity.
Qed.

Lemma zero_term_report_witness :
  exists m,
    Report (Spec.to_js typed_zero_term) = Ok m
    /\ monthlyPI m = PInf /\ annualDebtService m = PInf
    /\ dscr m = Fin 0 /\ cashFlow m = NInf.
Proof. apply (zero_term_report typed_zero_term); reflexivity. Defined.



(** ** What the calculator reads *)

Lemma metrics_of_ext (d d' : value) :
  nullish d = nullish d' ->
  Forall (fun k => opt d k = opt d' k) calculator_fields ->
  metrics_of d = metrics_of d'.
Proof.
  intros Hn H. unfold calculator_fields in H.
  rewrite !Forall_cons in H.
  destruct H as (E1 & E2 & E3 & E4 & E5 & E6 & E7 & E8 & E9 & E10 & E11 & E12 & E13 & _).
  unfold metrics_of, get. rewrite Hn.
  destruct (nullish d'); [reflexivity|].
  cbn [bind].
  rewrite E1, E2, E3, E4, E5, E6, E7, E8, E9, E10, E11, E12, E13.
  reflexivity.
Qed.

(** X7. The constants of the report depend on the thirteen fields the
    calculator reads and on nothing else of its argument: two objects that
    agree on them give the same run. *)
Theorem Report_reads_calculator_fields (a b : value) :
  nullish a = false -> nullish b = false ->
  Forall (fun k => opt a k = opt b k) calculator_fields ->
  Report a = Report b.
Proof.
  intros Ha Hb H. unfold Report, withDefaults. rewrite Ha, Hb. cbn [bind].
  unfold calculator_fields in H. rewrite !Forall_cons in H.
  destruct H as (E1 & E2 & E3 & E4 & E5 & E6 & E7 & E8 & E9 & E10 & E11 & E12 & E13 & _).
  apply metrics_of_ext; [reflexivity|].
  unfold calculator_fields. repeat apply Forall_cons_2; try apply Forall_nil_2.
  all: cbn [opt lookup String.eqb Ascii.eqb Bool.eqb default].
  all: try congruence.
  now rewrite E1.
Qed.

Lemma Report_reads_calculator_fields_witness :
  Report (VObj [("address", VStr "1 Main St"); ("purchasePrice", lit 500000);
                ("comps", VArr [VNull])])
  = Report (VObj [("purchasePrice", lit 500000)]).
Proof.
  apply Report_reads_calculator_fields; [reflexivity | reflexivity |].
  unfold calculator_fields. repeat constructor.
Defined.

(** ** Where the page throws *)













Lemma coalesce_defined (a b : value) : nullish a = false -> coalesce a b = a.
Proof. unfold coalesce. now intros ->. Qed.

(** ** The calculator never throws on defined units *)











(** ** The two defaulting steps in a row *)




(** ** From the upstream report to the calculator *)

Lemma coalesce_nullable (o : option Q) (d : Q) :
  coalesce (Upstream.nullable o) (lit d) = lit (default d o).
Proof. destruct o; reflexivity. Qed.

Lemma pctToDec_nullable (o : option Q) (d : Q) :
  pctToDec (Upstream.nullable o) (lit d) = lit (Upstream.percent o d).
Proof.
  destruct o as [p|]; [|reflexivity].
  unfold Upstream.nullable, Upstream.percent, pctToDec, lit. f_equal.
  change (num 100) with (Fin 100). unfold num at 1.
  rewrite div_fin by discriminate. qnorm. reflexivity.
Qed.

Lemma yearsToMonths_nullable (o : option Z) :
  yearsToMonths (Upstream.nullable (option_map inject_Z o)) (num 30)
  = lit (inject_Z (Upstream.months o)).
Proof.
  destruct o as [y|]; [|reflexivity].
  unfold option_map, Upstream.nullable, Upstream.months, yearsToMonths, lit. f_equal.
  change (num 12) with (Fin 12). unfold num at 1.
  cbn [Num.mul]. qnorm. now rewrite inject_Z_mult.
Qed.

Lemma Array_map_units (us : list Upstream.Unit) :
  Array_map map_unit (List.map Upstream.unit_to_js us)
  = Ok (List.map Spec.unit_to_js
          (List.map (fun u => {| Spec.name := Some (Upstream.name u);
                                 Spec.monthlyRent := default 0 (Upstream.modeledRentMonthly u) |})
                    us)).
Proof.
  induction us as [|u us IH]; [reflexivity|].
  cbn [List.map Array_map]. rewrite IH.
  unfold map_unit, Upstream.unit_to_js, Spec.unit_to_js, unit_obj.
  cbn [get nullish opt lookup String.eqb Ascii.eqb Bool.eqb default id bind
       Spec.name Spec.monthlyRent app].
  now rewrite coalesce_nullable.
Qed.

(** X11. On a report with typed fields, [mapFromSchema] followed by the
    calculator is the calculator on the typed inputs: the operating and
    financing percentages divided by 100, the term in months, the closing
    and points percentages taken as they stand, and for a field that is
    null 0 dollars, 2% closing, no points, 5% vacancy, 8% maintenance, 8%
    management, 25% down, 7.7% and 360 months. *)
Theorem upstream_pipeline (ToString : value -> string) (subject rentComps : value)
    (x : Upstream.Document) :
  elements_defined rentComps = true ->
  exists data,
    mapFromSchema ToString (Upstream.to_js subject rentComps x) = Ok data
    /\ Report data = Report (Spec.to_js (Upstream.inputs x)).
Proof.
  intros Hcomps.
  assert (Hc : exists comps,
             match rentComps with
             | VArr cs => let* l := Array_map (map_comp ToString) cs in Ok (VArr l)
             | _ => Ok (VArr [])
             end = Ok comps).
  { destruct rentComps as [| | | | |cs|]; simpl; eauto.
    destruct (Array_map_defined _ cs (map_comp_defined ToString) Hcomps) as (l & ->).
    simpl. eauto. }
  destruct Hc as (comps & Hc).
  assert (Hu : exists units,
             match VArr (List.map Upstream.unit_to_js (Upstream.units x)) with
             | VArr (u :: rest) =>
                 let* l := Array_map map_unit (u :: rest) in Ok (VArr l)
             | _ => Ok synthetic_units
             end = Ok units
             /\ units = units_or_synthetic
                          (VArr (List.map Spec.unit_to_js (Spec.units (Upstream.inputs x))))).
  { unfold Upstream.inputs. cbn [Spec.units].
    destruct (Upstream.units x) as [|u us]; [eexists; split; reflexivity|].
    pose proof (Array_map_units (u :: us)) as E. cbn [List.map] in E |- *.
    rewrite E. eexists; split; reflexivity. }
  destruct Hu as (units & Hu & Hunits).
  unfold mapFromSchema, Upstream.to_js.
  cbn [get nullish opt lookup String.eqb Ascii.eqb Bool.eqb default id bind].
  rewrite Hu. cbn [bind]. rewrite Hc. cbn [bind].
  eexists. split; [reflexivity|].
  unfold Report, withDefaults. cbn [nullish Spec.to_js bind].
  apply metrics_of_ext; [reflexivity|].
  rewrite !coalesce_nullable, !pctToDec_nullable, yearsToMonths_nullable.
  unfold calculator_fields. repeat apply Forall_cons_2; try apply Forall_nil_2.
  all: cbn [opt lookup String.eqb Ascii.eqb Bool.eqb default id
            Upstream.inputs Spec.purchasePrice Spec.closingCostPct Spec.pointsPct
            Spec.vacancyRate Spec.maintenancePctOfGrossRent Spec.managementPctOfEGI
            Spec.taxesAnnual Spec.insuranceAnnual Spec.hoaAnnual
            Spec.utilitiesLandlordAnnual Spec.otherOpExAnnual Spec.units
            Spec.downPaymentPct Spec.annualRatePct Spec.termMonths].
  all: try reflexivity.
  rewrite Hunits, units_or_synthetic_nonempty. reflexivity.
Qed.

Lemma upstream_pipeline_witness :
  exists data,
    mapFromSchema (fun _ => "") (Upstream.to_js VNull VUndefined typed_upstream) = Ok data
    /\ Report data = Report (Spec.to_js (Upstream.inputs typed_upstream)).
Proof. apply (upstream_pipeline (fun _ => "") VNull VUndefined typed_upstream). reflexivity. Defined.

(** ** The serverless function *)

Lemma bind_modelled {A B : Type} (c : outcome A) (k : A -> outcome B) :
  c <> Unmodelled -> (forall a, k a <> Unmodelled) -> bind c k <> Unmodelled.
Proof. destruct c; simpl; auto. Qed.

Lemma get_modelled (v : value) (k : string) : get v k <> Unmodelled.
Proof. unfold get. destruct (nullish v); discriminate. Qed.

Lemma content_of_modelled (m : value) : Api.content_of m <> Unmodelled.
Proof.
  unfold Api.content_of. apply bind_modelled; [apply get_modelled | discriminate].
Qed.

Lemma is_text_item_modelled (c : value) : Api.is_text_item c <> Unmodelled.
Proof.
  unfold Api.is_text_item. apply bind_modelled; [apply get_modelled|].
  intros type. destruct (_ || _); [|discriminate].
  apply bind_modelled; [apply get_modelled | discriminate].
Qed.

Lemma Array_flatMap_modelled (f : value -> outcome (list value)) (l : list value) :
  (forall m, f m <> Unmodelled) -> Api.Array_flatMap f l <> Unmodelled.
Proof.
  intros Hf. induction l as [|m l IH]; [discriminate|].
  cbn [Api.Array_flatMap]. apply bind_modelled; [apply Hf|].
  intros xs. apply bind_modelled; [exact IH | discriminate].
Qed.

Lemma Array_find_modelled (p : value -> outcome bool) (l : list value) :
  (forall c, p c <> Unmodelled) -> Api.Array_find p l <> Unmodelled.
Proof.
  intros Hp. induction l as [|c l IH]; [discriminate|].
  cbn [Api.Array_find]. apply bind_modelled; [apply Hp|].
  intros [|]; [discriminate | exact IH].
Qed.

Lemma extract_modelled (rt : Api.Runtime) (data : value) :
  Api.extract rt data <> Unmodelled.
Proof.
  unfold Api.extract. apply bind_modelled; [apply get_modelled|].
  intros output_parsed. apply bind_modelled; [destruct (_ && _); discriminate|].
  intros parsed1. destruct (negb (truthy parsed1)); [|discriminate].
  destruct (opt data "output"); try discriminate.
  apply bind_modelled; [apply Array_flatMap_modelled, content_of_modelled|].
  intros cs. apply bind_modelled; [apply Array_find_modelled, is_text_item_modelled|].
  intros firstText. destruct (truthy firstText); [|discriminate].
  apply bind_modelled; [apply get_modelled | discriminate].
Qed.

(** X12. Once the call is made the handler always answers, with the CORS
    headers: a rejected call or a thrown error is a 500 carrying its text,
    an answer that is not ok is passed on with its status and body, and an
    ok answer is either a 200 whose body is the truthy value extracted from
    it or a 500 carrying an error. *)
Theorem respond_answers (rt : Api.Runtime) (u : Api.Upstream) :
  exists r,
    Api.respond rt u = Ok r
    /\ Api.headers r = Api.cors
    /\ match u with
       | Api.Rejected text => r = Api.send 500 (Api.error text)
       | Api.Answered false s data => r = Api.send s data
       | Api.Answered true _ data =>
           (exists parsed,
              r = Api.send 200 parsed /\ truthy parsed = true
              /\ Api.extract rt data = Ok parsed)
           \/ (Api.status r = 500%Z
               /\ exists b, Api.json r = Some b /\ Api.is_string (opt b "error") = true)
       end.
Proof.
  destruct u as [text | [|] s data]; cbn [Api.respond negb].
  - eexists. repeat split.
  - destruct (Api.extract rt data) as [parsed| |] eqn:E.
    + destruct (truthy parsed) eqn:Ep; cbn [negb].
      * eexists. split; [reflexivity|]. split; [reflexivity|].
        left. exists parsed. auto.
      * eexists. split; [reflexivity|]. split; [reflexivity|].
        right. split; [reflexivity|]. eexists. split; reflexivity.
    + eexists. split; [reflexivity|]. split; [reflexivity|].
      right. split; [reflexivity|]. eexists. split; reflexivity.
    + now apply extract_modelled in E.
  - eexists. repeat split.
Qed.

(** X13. The order of the fallbacks.  A truthy [output_parsed] is the
    result whatever else the answer holds; when it is falsy and
    [output_text] is a text that parses to a truthy value, that value is;
    an answer that is [null] throws. *)
Theorem extract_precedence (rt : Api.Runtime) (data : value) :
  (nullish data = true -> Api.extract rt data = TypeError)
  /\ (nullish data = false -> truthy (opt data "output_parsed") = true ->
      Api.extract rt data = Ok (opt data "output_parsed"))
  /\ (forall t v,
        nullish data = false -> truthy (opt data "output_parsed") = false ->
        opt data "output_text" = VStr t -> t <> "" ->
        Api.JSON_parse rt t = Some v -> truthy v = true ->
        Api.extract rt data = Ok v).
Proof.
  unfold Api.extract, get. split; [|split].
  - now intros ->.
  - intros -> Hp. cbn [bind]. rewrite Hp. cbn [negb andb bind]. rewrite Hp. reflexivity.
  - intros t v -> Hp Ht Hne Hv Htv. cbn [bind]. rewrite Hp, Ht.
    cbn [negb andb Api.is_string bind].
    assert (E : Api.safeParseJSON rt (VStr t) = v).
    { unfold Api.safeParseJSON. destruct t; [congruence|].
      cbn [truthy Api.String_]. now rewrite Hv. }
    rewrite E, Htv. reflexivity.
Qed.

Lemma extract_precedence_witness :
  Api.extract plain_runtime
    (VObj [("output_parsed", VObj [("units", VArr [])]);
           ("output_text", VStr "{}");
           ("output", VArr [VNull])])
  = Ok (VObj [("units", VArr [])]).
Proof.
  destruct (extract_precedence plain_runtime
              (VObj [("output_parsed", VObj [("units", VArr [])]);
                     ("output_text", VStr "{}");
                     ("output", VArr [VNull])])) as (_ & H & _).
  apply H; reflexivity.
Defined.

Lemma Array_find_first (p : value -> outcome bool) (pre post : list value) (c : value) :
  Forall (fun x => p x = Ok false) pre -> p c = Ok true ->
  Api.Array_find p (pre ++ c :: post) = Ok c.
Proof.
  intros Hpre Hc. induction Hpre as [|x pre Hx _ IH]; cbn [app Api.Array_find].
  - now rewrite Hc.
  - now rewrite Hx.
Qed.

Lemma text_item_truthy (c : value) :
  Api.is_text_item c = Ok true ->
  truthy c = true /\ nullish c = false /\ exists t, opt c "text" = VStr t.
Proof.
  unfold Api.is_text_item, get.
  destruct c as [| | | | | |props]; try discriminate; cbn [nullish bind opt truthy].
  destruct (_ || _); [|discriminate].
  intros H. apply Ok_inj in H.
  destruct (default VUndefined (lookup "text" props)); try discriminate. eauto.
Qed.

(** X14. The last fallback takes the first text item of the flattened
    [output[].content[]] and nothing after it: when neither
    [output_parsed] nor [output_text] gives a truthy value, the result is
    the parse of that item's text, whatever follows it in the list. *)
Theorem nested_text_fallback (rt : Api.Runtime) (data : value)
    (ms pre post : list value) (c : value) :
  nullish data = false ->
  truthy (opt data "output_parsed") = false ->
  (Api.is_string (opt data "output_text") = true ->
   truthy (Api.safeParseJSON rt (opt data "output_text")) = false) ->
  opt data "output" = VArr ms ->
  Api.Array_flatMap Api.content_of ms = Ok (pre ++ c :: post)%list ->
  Forall (fun x => Api.is_text_item x = Ok false) pre ->
  Api.is_text_item c = Ok true ->
  Api.extract rt data = Ok (Api.safeParseJSON rt (opt c "text")).
Proof.
  intros Hd Hp Ht Hout Hflat Hpre Hc.
  destruct (text_item_truthy c Hc) as (Htr & Hn & t & Htext).
  unfold Api.extract, get. rewrite Hd. cbn [bind]. rewrite Hp. cbn [negb andb].
  assert (E : truthy (if Api.is_string (opt data "output_text")
                      then Api.safeParseJSON rt (opt data "output_text")
                      else opt data "output_parsed") = false).
  { destruct (Api.is_string (opt data "output_text")); auto. }
  destruct (Api.is_string (opt data "output_text")); cbn [bind]; rewrite E; cbn [negb];
    rewrite Hout, Hflat; cbn [bind];
    rewrite (Array_find_first _ pre post c Hpre Hc); cbn [bind];
    rewrite Htr, Hn; reflexivity.
Qed.

Lemma nested_text_fallback_witness :
  Api.extract plain_runtime
    (VObj [("output",
            VArr [VObj [("type", VStr "reasoning")];
                  VObj [("content",
                         VArr [VObj [("type", VStr "refusal")];
                               VObj [("type", VStr "output_text"); ("text", VStr "{}")];
                               VNull])]])])
  = Ok (Api.safeParseJSON plain_runtime (VStr "{}")).
Proof.
  apply (nested_text_fallback plain_runtime _
           [VObj [("type", VStr "reasoning")];
            VObj [("content",
                   VArr [VObj [("type", VStr "refusal")];
                         VObj [("type", VStr "output_text"); ("text", VStr "{}")];
                         VNull])]]
           [VObj [("type", VStr "refusal")]] [VNull]
           (VObj [("type", VStr "output_text"); ("text", VStr "{}")]));
    try reflexivity; try (intros H; discriminate H).
  repeat constructor.
Defined.

(** ** When the function calls out *)





(** X18. A body that cannot be read is an empty body.  When [req.body] is a
    text that does not parse, or is falsy with a stream that cannot be
    read, is empty or does not parse, the configured function answers 400
    "address is required" and calls nothing. *)
Theorem unreadable_body_is_400 (rt : Api.Runtime) (env : Api.Env) (req : Api.Request) :
  Api.method req = "POST" ->
  truthy (Api.env_value (Api.OPENAI_API_KEY env)) = true ->
  truthy (Api.env_value (Api.OPENAI_PROMPT_ID env)) = true ->
  (exists s, Api.body req = VStr s /\ s <> "" /\ Api.JSON_parse rt s = None)
  \/ (truthy (Api.body req) = false
      /\ match Api.stream req with
         | None => True
         | Some raw => raw = "" \/ Api.JSON_parse rt raw = None
         end) ->
  Api.read_body rt req = VObj []
  /\ Api.Generate.handler rt env req
     = Api.Reply (Api.send 400 (Api.error "address is required"))
  /\ Api.Part000.handler rt env req
     = Api.Reply (Api.send 400 (Api.error "address is required"))
  /\ Api.Part001b.handler rt env req
     = Api.Reply (Api.send 400 (Api.error "address is required")).
Proof.
  intros Hm Hkey Hprompt Hbody.
  assert (Hread : Api.read_body rt req = VObj []).
  { unfold Api.read_body, Api.nonempty, Api.parse_or_empty.
    destruct Hbody as [(s & Hb & Hne & Hp) | (Hb & Hs)].
    - rewrite Hb. destruct s; [congruence|]. cbn [truthy negb]. now rewrite Hp.
    - rewrite Hb. cbn [negb]. destruct (Api.stream req) as [raw|]; [|reflexivity].
      destruct Hs as [-> | Hp]; [reflexivity|].
      destruct (String.eqb raw ""); [reflexivity|]. cbn [negb]. now rewrite Hp. }
  split; [exact Hread|].
  unfold Api.Generate.handler, Api.Part000.handler, Api.Part001b.handler.
  rewrite Hm, Hkey, Hprompt, Hread. repeat split; reflexivity.
Qed.

Lemma unreadable_body_is_400_witness :
  Api.read_body plain_runtime (post (VStr "address=1 Main St")) = VObj []
  /\ Api.Generate.handler plain_runtime configured (post (VStr "address=1 Main St"))
     = Api.Reply (Api.send 400 (Api.error "address is required"))
  /\ Api.Part000.handler plain_runtime configured (post (VStr "address=1 Main St"))
     = Api.Reply (Api.send 400 (Api.error "address is required"))
  /\ Api.Part001b.handler plain_runtime configured (post (VStr "address=1 Main St"))
     = Api.Reply (Api.send 400 (Api.error "address is required")).
Proof.
  apply (unreadable_body_is_400 plain_runtime configured (post (VStr "address=1 Main St")));
    try reflexivity.
  left. exists "address=1 Main St". repeat split. discriminate.
Defined.


(** X20. The later versions extend the first in what they make of an
    answer: whenever the first version of part_001 sends anything but a
    500, the later versions send the same response. *)
Theorem later_versions_extend_first (rt : Api.Runtime) (u : Api.Upstream) (r : Api.Response) :
  Api.Part001.respond rt u = Ok r -> Api.status r <> 500%Z ->
  Api.respond rt u = Ok r.
Proof.
  destruct u as [text | ok s data]; cbn [Api.Part001.respond Api.respond].
  - intros [= <-] H. now contradiction H.
  - destruct ok; cbn [negb]; [|tauto].
    unfold Api.Part001.extract, Api.extract, get.
    destruct (nullish data); cbn [bind].
    { intros [= <-] H. now contradiction H. }
    destruct (nullish (opt data "output_parsed")) eqn:En.
    + assert (Ht : truthy (opt data "output_parsed") = false)
        by (destruct (opt data "output_parsed"); try discriminate; reflexivity).
      rewrite Ht. cbn [negb andb].
      destruct (Api.is_string (opt data "output_text")); cbn [bind].
      * destruct (truthy (Api.safeParseJSON rt (opt data "output_text"))) eqn:Es;
          cbn [negb].
        -- rewrite ?Es. cbn [negb]. tauto.
        -- intros [= <-] H. now contradiction H.
      * cbn [truthy negb]. intros [= <-] H. now contradiction H.
    + destruct (truthy (opt data "output_parsed")) eqn:Ht; cbn [negb andb bind].
      * rewrite ?Ht. cbn [negb andb bind]. rewrite ?Ht. cbn [negb]. tauto.
      * intros [= <-] H. now contradiction H.
Qed.

Lemma later_versions_extend_first_witness :
  Api.respond plain_runtime (Api.Answered true 200 (VObj [("output_parsed", VObj [])]))
  = Ok (Api.send 200 (VObj [])).
Proof.
  apply (later_versions_extend_first plain_runtime); [reflexivity | discriminate].
Defined.
